(** * Visualization markers on a [UsdGeom.PointInstancer]

    A shallow embedding of
    [omni/isaac/orbit/markers/visualization_markers.py]: the configuration
    classes, the constructor of [VisualizationMarkers] with its prototype
    registration loop, the visibility controls and [visualize], the
    instance-update protocol.

    Python objects are records, the object under mutation is threaded
    through a state monad whose outcome is either a raised exception or a
    value; the state survives a raise, as a Python object survives an
    exception thrown half-way through one of its methods.

    The file has four parts: the model (section [Markers]), a concrete
    marker group (module [Demo]), the properties (section [Properties]) and
    their instances on the concrete group.  Sections [Protocol] and
    [Sequences] then go through the rest of the module: every way a call
    of [visualize] can end, what it keeps, the visibility controls and what
    construction leaves on the stage. *)

From Stdlib Require Import String Ascii List ZArith Arith Bool Lia DecimalString.
Import ListNotations.
Local Open Scope list_scope.

(** ** Exceptions *)

(** The three Python exceptions the module can raise.  [ValueError] and
    [FileNotFoundError] are raised explicitly; [IndexError] is what indexing
    a tuple past its end raises. *)
Inductive exn : Type :=
| ValueError (msg : string)
| IndexError (msg : string)
| FileNotFoundError (msg : string).

(** ** A state monad in which exceptions keep the state *)

Section Effects.
Variable Self : Type.

Definition M (A : Type) : Type := Self -> (exn + A) * Self.

Definition ret {A} (a : A) : M A := fun s => (inr a, s).

Definition bind {A B} (m : M A) (k : A -> M B) : M B :=
  fun s => match m s with
           | (inr a, s') => k a s'
           | (inl e, s') => (inl e, s')
           end.

Definition raise {A} (e : exn) : M A := fun s => (inl e, s).

Definition get : M Self := fun s => (inr s, s).

Definition modify (f : Self -> Self) : M unit := fun s => (inr tt, f s).

(** [for x in xs: body x] *)
Fixpoint for_each {A} (xs : list A) (body : A -> M unit) : M unit :=
  match xs with
  | [] => ret tt
  | x :: rest => bind (body x) (fun _ => for_each rest body)
  end.
End Effects.

Arguments ret {Self A} a.
Arguments bind {Self A B} m k.
Arguments raise {Self A} e.
Arguments get {Self}.
Arguments modify {Self} f.
Arguments for_each {Self A} xs body.

Declare Scope py_scope.
Delimit Scope py_scope with py.
Notation "x <- c ;; k" := (bind c (fun x => k))
  (at level 100, c at next level, right associativity) : py_scope.
Notation "c ;; k" := (bind c (fun _ => k))
  (at level 100, right associativity) : py_scope.
Local Open Scope py_scope.

(** ** Arrays as [numpy] has them: a shape and a row-major buffer *)

Record ndarray (A : Type) : Type := mk_ndarray {
  shape : list nat;
  data : list A
}.
Arguments mk_ndarray {A} shape data.
Arguments shape {A} n.
Arguments data {A} n.

(** The buffer of a [numpy] array holds as many elements as its shape says. *)
Definition ndarray_wf {A} (a : ndarray A) : Prop :=
  List.length (data a) = fold_right Nat.mul 1 (shape a).

(** An argument typed [np.ndarray | torch.Tensor]. *)
Inductive array_like (A : Type) : Type :=
| NdArray (a : ndarray A)
| Tensor (t : ndarray A).
Arguments NdArray {A} a.
Arguments Tensor {A} t.

(** [t.detach().cpu().numpy()]: same shape, same contents. *)
Definition detach_cpu_numpy {A} (t : ndarray A) : ndarray A := t.

(** [if isinstance(x, torch.Tensor): x = x.detach().cpu().numpy()] *)
Definition as_numpy {A} (x : array_like A) : ndarray A :=
  match x with
  | Tensor t => detach_cpu_numpy t
  | NdArray a => a
  end.

(** An argument typed [list[int] | np.ndarray | torch.Tensor]. *)
Inductive indices_like : Type :=
| IndexList (l : list Z)
| IndexArray (a : array_like Z).

(** [np.array(l)] of a flat list of integers. *)
Definition np_array (l : list Z) : ndarray Z :=
  mk_ndarray [List.length l] l.

(** The [isinstance] cascade on [marker_indices]. *)
Definition indices_as_numpy (x : indices_like) : ndarray Z :=
  match x with
  | IndexArray (Tensor t) => detach_cpu_numpy t
  | IndexList l => np_array l
  | IndexArray (NdArray a) => a
  end.

(** [t[i]] on a tuple of dimensions. *)
Definition tuple_getitem {Self} (t : list nat) (i : nat) : M Self nat :=
  match nth_error t i with
  | Some d => ret d
  | None => raise (IndexError "tuple index out of range")
  end.

(** [str] of an [int] and of a tuple of [int]s, as an f-string renders a
    shape: [()], [(3,)], [(4, 3)]. *)
Definition str_int (n : nat) : string := NilZero.string_of_uint (Nat.to_uint n).

Definition str_tuple (t : list nat) : string :=
  match t with
  | [] => "()"
  | [d] => "(" ++ str_int d ++ ",)"
  | _ => "(" ++ String.concat ", " (map str_int t) ++ ")"
  end%string.

(** The first [m] rows of width [k] of a row-major buffer: the rows
    [Vt.Vec3fArray.FromNumpy] and [Vt.QuathArray.FromNumpy] read off an
    [(m, k)] array. *)
Fixpoint rows {A} (m k : nat) (buf : list A) : list (list A) :=
  match m with
  | 0 => []
  | S m' => firstn k buf :: rows m' k (skipn k buf)
  end.

(** The element conversions of the host's arrays.  A [Vt.Vec3fArray] holds
    single-precision components and a [Vt.QuathArray] half-precision ones:
    their [FromNumpy] narrows every float of the [numpy] array it is given.
    A narrowed value is again a scalar, every float32 and every half being
    a float64.  The two roundings belong to the host library; they are
    parameters of the model. *)
Class HostFloats (F : Type) : Type := {
  to_float32 : F -> F;
  to_half : F -> F
}.

(** [Vt.Vec3fArray.FromNumpy] and [Vt.QuathArray.FromNumpy] of an [(m, k)]
    array: its rows, every component narrowed. *)
Definition Vec3fArray_FromNumpy {F} {host : HostFloats F} (a : ndarray F) : list (list F) :=
  rows (nth 0 (shape a) 0) (nth 1 (shape a) 0) (map to_float32 (data a)).

Definition QuathArray_FromNumpy {F} {host : HostFloats F} (a : ndarray F) : list (list F) :=
  rows (nth 0 (shape a) 0) (nth 1 (shape a) 0) (map to_half (data a)).

(** A [numpy] integer narrowed to a signed 32-bit integer, with
    wrap-around. *)
Definition int32 (z : Z) : Z := ((z + 2 ^ 31) mod 2 ^ 32 - 2 ^ 31)%Z.

(** The integers that narrowing leaves as they are. *)
Definition fits_int32 (z : Z) : Prop := (- 2 ^ 31 <= z < 2 ^ 31)%Z.

(** [Vt.IntArray.FromNumpy] of a rank-1 array: its buffer, every element
    narrowed to 32 bits. *)
Definition IntArray_FromNumpy (a : ndarray Z) : list Z := map int32 (data a).

(** Modelled from the spec: [convert_quat] of [omni.isaac.orbit.utils.math],
    which is not among the sources.  Section 4.2 step 3: orientation values
    are converted from (w,x,y,z) to (x,y,z,w), a pure reordering of every
    quaternion of the array. *)
Fixpoint roll_wxyz_to_xyzw {A} (buf : list A) : list A :=
  match buf with
  | w :: x :: y :: z :: rest => x :: y :: z :: w :: roll_wxyz_to_xyzw rest
  | _ => buf
  end.

(** Modelled from the spec: [convert_quat(quat, to="xyzw")], the same
    reordering on an array; the shape is kept. *)
Definition convert_quat_xyzw {A} (quat : ndarray A) : ndarray A :=
  mk_ndarray (shape quat) (roll_wxyz_to_xyzw (data quat)).

(** ** The module *)

Section Markers.
(** The scalar type of translations, orientations and scales.  The module
    only moves these values, it never computes with them; the host narrows
    them when it stores them. *)
Context {F : Type}.
(** How the host narrows a scalar it stores. *)
Context {host : HostFloats F}.
(** The value of [Gf.Vec3f()]'s components. *)
Variable fzero : F.
(** [Any], the type of the values of a marker's attribute dictionary. *)
Context {Any : Type}.
(** [check_file_path] of [omni.isaac.orbit.utils.assets]: whether a path
    resolves on the host file system. *)
Variable check_file_path : string -> bool.
(** [stage_utils.get_next_free_path]. *)
Variable get_next_free_path : string -> string.

(** *** Configuration classes *)

(** The fields of [VisualizationMarkersCfg.MarkerCfg]. *)
Record MarkerFields : Type := {
  visible : bool;
  prim_type : string;
  scale : option (list F);
  color : option (list F);
  attributes : option (list (string * Any))
}.

(** [MarkerCfg] and its subclass [FileMarkerCfg], which adds [usd_path]. *)
Inductive MarkerCfg : Type :=
| PrimMarkerCfg (fields : MarkerFields)
| FileMarkerCfg (fields : MarkerFields) (usd_path : string).

Definition fields_of (cfg : MarkerCfg) : MarkerFields :=
  match cfg with
  | PrimMarkerCfg f => f
  | FileMarkerCfg f _ => f
  end.

(** [markers: dict[str, MarkerCfg]]; a [dict] iterates in insertion order. *)
Record VisualizationMarkersCfg : Type := {
  markers : list (string * MarkerCfg)
}.

(** *** The host stage *)

Inductive visibility_token : Type := inherited | invisible.

(** The attributes of the [UsdGeom.PointInstancer] the module reads or
    writes; [None] is an attribute that was never authored. *)
Record PointInstancer : Type := {
  visibility : visibility_token;
  positions : option (list (list F));
  orientations : option (list (list F));
  scales : option (list (list F));
  protoIndices : option (list Z);
  prototypes : list string
}.

(** [prim_utils.define_prim(prim_path, "PointInstancer")] *)
Definition define_PointInstancer : PointInstancer :=
  {| visibility := inherited; positions := None; orientations := None;
     scales := None; protoIndices := None; prototypes := [] |}.

(** A marker prototype prim, as the calls of [_add_markers_prototypes]
    leave it on the stage. *)
Record Prim : Type := {
  path : string;
  type_name : string;
  reference : option string;
  xform_scale : option (list F);
  prim_attributes : option (list (string * Any));
  prim_visible : bool;
  invisibleToSecondaryRays : bool;
  visual_material : option (list F)
}.

(** [prim_utils.create_prim(prim_path, prim_type, usd_path, scale, attributes)] *)
Definition create_prim (prim_path prim_type : string) (usd_path : option string)
    (scale : option (list F)) (attributes : option (list (string * Any))) : Prim :=
  {| path := prim_path; type_name := prim_type; reference := usd_path;
     xform_scale := scale; prim_attributes := attributes; prim_visible := true;
     invisibleToSecondaryRays := false; visual_material := None |}.

Definition on_prim (prim_path : string) (f : Prim -> Prim) (stage : list Prim) : list Prim :=
  map (fun p => if String.eqb (path p) prim_path then f p else p) stage.

Definition set_invisibleToSecondaryRays (value : bool) (p : Prim) : Prim :=
  {| path := path p; type_name := type_name p; reference := reference p;
     xform_scale := xform_scale p; prim_attributes := prim_attributes p;
     prim_visible := prim_visible p; invisibleToSecondaryRays := value;
     visual_material := visual_material p |}.

Definition set_prim_visibility (value : bool) (p : Prim) : Prim :=
  {| path := path p; type_name := type_name p; reference := reference p;
     xform_scale := xform_scale p; prim_attributes := prim_attributes p;
     prim_visible := value; invisibleToSecondaryRays := invisibleToSecondaryRays p;
     visual_material := visual_material p |}.

Definition apply_visual_material (rgb : list F) (p : Prim) : Prim :=
  {| path := path p; type_name := type_name p; reference := reference p;
     xform_scale := xform_scale p; prim_attributes := prim_attributes p;
     prim_visible := prim_visible p; invisibleToSecondaryRays := invisibleToSecondaryRays p;
     visual_material := Some rgb |}.

(** *** The class *)

Record VisualizationMarkers : Type := {
  prim_path : string;
  cfg : VisualizationMarkersCfg;
  _instancer_manager : PointInstancer;
  stage : list Prim;
  _count : nat
}.

Definition with_instancer (f : PointInstancer -> PointInstancer)
    (self : VisualizationMarkers) : VisualizationMarkers :=
  {| prim_path := prim_path self; cfg := cfg self;
     _instancer_manager := f (_instancer_manager self);
     stage := stage self; _count := _count self |}.

Definition with_stage (f : list Prim -> list Prim)
    (self : VisualizationMarkers) : VisualizationMarkers :=
  {| prim_path := prim_path self; cfg := cfg self;
     _instancer_manager := _instancer_manager self;
     stage := f (stage self); _count := _count self |}.

(** [self._count = n] *)
Definition set_count (n : nat) (self : VisualizationMarkers) : VisualizationMarkers :=
  {| prim_path := prim_path self; cfg := cfg self;
     _instancer_manager := _instancer_manager self;
     stage := stage self; _count := n |}.

(** [GetPositionsAttr().Set(v)] and its three siblings, [GetVisibilityAttr]
    through [MakeVisible]/[MakeInvisible], and [GetPrototypesRel().AddTarget]. *)
Definition SetPositions (v : list (list F)) : VisualizationMarkers -> VisualizationMarkers :=
  with_instancer (fun i =>
    {| visibility := visibility i; positions := Some v; orientations := orientations i;
       scales := scales i; protoIndices := protoIndices i; prototypes := prototypes i |}).

Definition SetOrientations (v : list (list F)) : VisualizationMarkers -> VisualizationMarkers :=
  with_instancer (fun i =>
    {| visibility := visibility i; positions := positions i; orientations := Some v;
       scales := scales i; protoIndices := protoIndices i; prototypes := prototypes i |}).

Definition SetScales (v : list (list F)) : VisualizationMarkers -> VisualizationMarkers :=
  with_instancer (fun i =>
    {| visibility := visibility i; positions := positions i; orientations := orientations i;
       scales := Some v; protoIndices := protoIndices i; prototypes := prototypes i |}).

Definition SetProtoIndices (v : list Z) : VisualizationMarkers -> VisualizationMarkers :=
  with_instancer (fun i =>
    {| visibility := visibility i; positions := positions i; orientations := orientations i;
       scales := scales i; protoIndices := Some v; prototypes := prototypes i |}).

Definition SetVisibility (v : visibility_token) : VisualizationMarkers -> VisualizationMarkers :=
  with_instancer (fun i =>
    {| visibility := v; positions := positions i; orientations := orientations i;
       scales := scales i; protoIndices := protoIndices i; prototypes := prototypes i |}).

Definition AddTarget (target : string) : VisualizationMarkers -> VisualizationMarkers :=
  with_instancer (fun i =>
    {| visibility := visibility i; positions := positions i; orientations := orientations i;
       scales := scales i; protoIndices := protoIndices i;
       prototypes := prototypes i ++ [target] |}).

Definition Method (A : Type) : Type := M VisualizationMarkers A.

(** [_add_markers_prototypes]: one prototype prim per entry of the
    dictionary, in its iteration order. *)
Definition _add_markers_prototypes (markers_cfg : list (string * MarkerCfg)) : Method unit :=
  for_each markers_cfg (fun '(name, cfg) =>
    usd_path <-
      match cfg with
      | PrimMarkerCfg f =>
          if String.eqb (prim_type f) "Xform" then
            raise (ValueError "Please use `FileMarkerCfg` for `prim_type` of `Xform`.")
          else ret None
      | FileMarkerCfg f usd_path =>
          if negb (check_file_path usd_path) then
            raise (FileNotFoundError ("USD file for the marker not found at: " ++ usd_path)%string)
          else if negb (String.eqb (prim_type f) "Xform") then
            raise (ValueError ("Please use `prim_type` of `Xform` for `FileMarkerCfg`. Received: "
                               ++ prim_type f ++ ".")%string)
          else ret (Some usd_path)
      end ;;
    self <- get ;;
    let marker_prim_path := (prim_path self ++ "/" ++ name)%string in
    let f := fields_of cfg in
    modify (with_stage (fun st =>
      st ++ [create_prim marker_prim_path (prim_type f) usd_path (scale f) (attributes f)])) ;;
    modify (with_stage (on_prim marker_prim_path (set_invisibleToSecondaryRays true))) ;;
    modify (with_stage (on_prim marker_prim_path (set_prim_visibility (visible f)))) ;;
    match color f with
    | Some rgb => modify (with_stage (on_prim marker_prim_path (apply_visual_material rgb)))
    | None => ret tt
    end ;;
    modify (AddTarget marker_prim_path)).

(** [__init__].  The object exists only when the body returns normally;
    [_count] is assigned by its last statement. *)
Definition __init__ (prim_path : string) (cfg : VisualizationMarkersCfg)
    : exn + VisualizationMarkers :=
  let prim_path := get_next_free_path prim_path in
  let self := {| prim_path := prim_path; cfg := cfg;
                 _instancer_manager := define_PointInstancer;
                 stage := []; _count := 0 |} in
  let body : Method unit :=
    (if List.length (markers cfg) =? 0 then
       raise (ValueError "The `cfg.markers` cannot be empty. Received: {}")
     else ret tt) ;;
    _add_markers_prototypes (markers cfg) ;;
    modify (SetProtoIndices [0%Z]) ;;
    modify (SetPositions [[fzero; fzero; fzero]]) ;;
    modify (set_count 1) in
  match body self with
  | (inr _, self) => inr self
  | (inl e, _) => inl e
  end.

(** The properties [num_prototypes] and [count]. *)
Definition num_prototypes (self : VisualizationMarkers) : nat :=
  List.length (markers (cfg self)).

Definition count (self : VisualizationMarkers) : nat := _count self.

Definition set_visibility (visible : bool) : Method unit :=
  if visible then modify (SetVisibility inherited)
  else modify (SetVisibility invisible).

Definition is_visible (self : VisualizationMarkers) : bool :=
  match visibility (_instancer_manager self) with
  | invisible => false
  | _ => true
  end.

(** [visualize], lines 305-342: the three blocks the source marks
    [-- position], [-- orientation] and [-- scales].  Each takes the running
    [num_markers] and returns the new one. *)
Definition visualize_position (translations : option (array_like F))
    (num_markers : nat) : Method nat :=
  match translations with
  | Some translations =>
      let translations := as_numpy translations in
      d1 <- tuple_getitem (shape translations) 1 ;;
      if negb (d1 =? 3) || negb (List.length (shape translations) =? 2) then
        raise (ValueError ("Expected `translations` to have shape (M, 3). Received: "
                           ++ str_tuple (shape translations) ++ ".")%string)
      else
        modify (SetPositions (Vec3fArray_FromNumpy translations)) ;;
        tuple_getitem (shape translations) 0
  | None => ret num_markers
  end.

Definition visualize_orientation (orientations : option (array_like F))
    (num_markers : nat) : Method nat :=
  match orientations with
  | Some orientations =>
      let orientations := as_numpy orientations in
      d1 <- tuple_getitem (shape orientations) 1 ;;
      if negb (d1 =? 4) || negb (List.length (shape orientations) =? 2) then
        raise (ValueError ("Expected `orientations` to have shape (M, 4). Received: "
                           ++ str_tuple (shape orientations) ++ ".")%string)
      else
        let orientations := convert_quat_xyzw orientations in
        modify (SetOrientations (QuathArray_FromNumpy orientations)) ;;
        tuple_getitem (shape orientations) 0
  | None => ret num_markers
  end.

Definition visualize_scales (scales : option (array_like F))
    (num_markers : nat) : Method nat :=
  match scales with
  | Some scales =>
      let scales := as_numpy scales in
      d1 <- tuple_getitem (shape scales) 1 ;;
      if negb (d1 =? 3) || negb (List.length (shape scales) =? 2) then
        raise (ValueError ("Expected `scales` to have shape (M, 3). Received: "
                           ++ str_tuple (shape scales) ++ ".")%string)
      else
        modify (SetScales (Vec3fArray_FromNumpy scales)) ;;
        tuple_getitem (shape scales) 0
  | None => ret num_markers
  end.

(** Lines 343-363, the block marked [-- status]. *)
Definition visualize_status (marker_indices : option indices_like)
    (num_markers : nat) : Method nat :=
  self <- get ;;
  if (match marker_indices with Some _ => true | None => false end)
     || negb (num_markers =? _count self) then
    match marker_indices with
    | Some marker_indices =>
        let marker_indices := indices_as_numpy marker_indices in
        if negb (List.length (shape marker_indices) =? 1) then
          raise (ValueError ("Expected `marker_indices` to have shape (M,). Received: "
                             ++ str_tuple (shape marker_indices) ++ ".")%string)
        else
          modify (SetProtoIndices (IntArray_FromNumpy marker_indices)) ;;
          tuple_getitem (shape marker_indices) 0
    | None =>
        if num_markers =? 0 then
          raise (ValueError
            "Number of markers cannot be zero! Hint: The function was called with no inputs?")
        else
          modify (SetProtoIndices (repeat 0%Z num_markers)) ;;
          ret num_markers
    end
  else ret num_markers.

(** [visualize]: the visibility test, the four blocks in their order, and
    the assignment to [_count]. *)
Definition visualize
    (translations orientations scales : option (array_like F))
    (marker_indices : option indices_like) : Method unit :=
  self <- get ;;
  if negb (is_visible self) then ret tt else
  let num_markers := 0 in
  num_markers <- visualize_position translations num_markers ;;
  num_markers <- visualize_orientation orientations num_markers ;;
  num_markers <- visualize_scales scales num_markers ;;
  num_markers <- visualize_status marker_indices num_markers ;;
  modify (set_count num_markers).

(** *** The vocabulary of the specification *)

(** An array passes the shape validation of width [k] when it has rank 2 and
    its second dimension is [k]; an index array when it has rank 1. *)
Definition rank2_width {A} (k : nat) (a : ndarray A) : bool :=
  match shape a with
  | [_; w] => w =? k
  | _ => false
  end.

Definition rank1 {A} (a : ndarray A) : bool :=
  match shape a with
  | [_] => true
  | _ => false
  end.

Definition provided_ok (k : nat) (x : option (array_like F)) : bool :=
  match x with
  | Some x => rank2_width k (as_numpy x)
  | None => true
  end.

Definition indices_ok (marker_indices : option indices_like) : bool :=
  match marker_indices with
  | Some mi => rank1 (indices_as_numpy mi)
  | None => true
  end.

(** The leading dimension M of an array. *)
Definition leading_dim {A} (a : ndarray A) : nat := hd 0 (shape a).

Definition dim_or (x : option (array_like F)) (n : nat) : nat :=
  match x with
  | Some x => leading_dim (as_numpy x)
  | None => n
  end.

(** The instance count implied by translations, orientations and scales:
    the leading dimension of the last one provided, 0 when none is. *)
Definition implied_count (translations orientations scales : option (array_like F)) : nat :=
  dim_or scales (dim_or orientations (dim_or translations 0)).

(** The leading dimension of the last non-null argument in the order
    translations, orientations, scales, marker_indices. *)
Definition last_provided_dim (translations orientations scales : option (array_like F))
    (marker_indices : option indices_like) : option nat :=
  match marker_indices, scales, orientations, translations with
  | Some mi, _, _, _ => Some (leading_dim (indices_as_numpy mi))
  | None, Some sc, _, _ => Some (leading_dim (as_numpy sc))
  | None, None, Some o, _ => Some (leading_dim (as_numpy o))
  | None, None, None, Some t => Some (leading_dim (as_numpy t))
  | None, None, None, None => None
  end.

(** The reordering of one quaternion from (w,x,y,z) to (x,y,z,w). *)
Definition xyzw_of_wxyz {A} (q : list A) : list A :=
  match q with
  | [w; x; y; z] => [x; y; z; w]
  | _ => q
  end.

(** What the three array blocks write when each provided array is accepted. *)
Definition write_positions (x : option (array_like F)) (self : VisualizationMarkers) :=
  match x with
  | Some x => SetPositions (Vec3fArray_FromNumpy (as_numpy x)) self
  | None => self
  end.

Definition write_orientations (x : option (array_like F)) (self : VisualizationMarkers) :=
  match x with
  | Some x => SetOrientations (QuathArray_FromNumpy (convert_quat_xyzw (as_numpy x))) self
  | None => self
  end.

Definition write_scales (x : option (array_like F)) (self : VisualizationMarkers) :=
  match x with
  | Some x => SetScales (Vec3fArray_FromNumpy (as_numpy x)) self
  | None => self
  end.

Definition write_arrays (translations orientations scales : option (array_like F))
    (self : VisualizationMarkers) : VisualizationMarkers :=
  write_scales scales (write_orientations orientations (write_positions translations self)).

(** The messages of the zero-markers error and of the shape errors. *)
Definition zero_markers_msg : string :=
  "Number of markers cannot be zero! Hint: The function was called with no inputs?".

Definition shape_msg (argument expected : string) (received : list nat) : string :=
  ("Expected `" ++ argument ++ "` to have shape " ++ expected ++ ". Received: "
   ++ str_tuple received ++ ".")%string.

(** A marker entry passes the checks of [_add_markers_prototypes]. *)
Definition marker_ok (cfg : MarkerCfg) : bool :=
  match cfg with
  | PrimMarkerCfg f => negb (String.eqb (prim_type f) "Xform")
  | FileMarkerCfg f usd_path => check_file_path usd_path && String.eqb (prim_type f) "Xform"
  end.

(** The exception [_add_markers_prototypes] raises on an entry that does
    not pass: for a file marker the file is looked up before the prim type
    is compared. *)
Definition marker_error (cfg : MarkerCfg) : exn :=
  match cfg with
  | PrimMarkerCfg _ => ValueError "Please use `FileMarkerCfg` for `prim_type` of `Xform`."
  | FileMarkerCfg f usd_path =>
      if check_file_path usd_path then
        ValueError ("Please use `prim_type` of `Xform` for `FileMarkerCfg`. Received: "
                    ++ prim_type f ++ ".")%string
      else FileNotFoundError ("USD file for the marker not found at: " ++ usd_path)%string
  end.

(** The path of the prototype prim of the entry called [name]. *)
Definition marker_prim_path (self : VisualizationMarkers) (name : string) : string :=
  (prim_path self ++ "/" ++ name)%string.

(** *** The outcomes of [visualize]

    Every way a call can end, read off the body: the early return, a raise
    in one of the three array blocks, and the five ends of the status
    block.  The second component is the object the call leaves behind. *)
Inductive visualize_case
    (translations orientations scales : option (array_like F))
    (marker_indices : option indices_like) (self : VisualizationMarkers)
    : (exn + unit) * VisualizationMarkers -> Prop :=
| case_hidden :
    is_visible self = false ->
    visualize_case translations orientations scales marker_indices self (inr tt, self)
| case_translations_rejected e :
    is_visible self = true ->
    provided_ok 3 translations = false ->
    visualize_case translations orientations scales marker_indices self (inl e, self)
| case_orientations_rejected e :
    is_visible self = true ->
    provided_ok 3 translations = true ->
    provided_ok 4 orientations = false ->
    visualize_case translations orientations scales marker_indices self
      (inl e, write_positions translations self)
| case_scales_rejected e :
    is_visible self = true ->
    provided_ok 3 translations = true ->
    provided_ok 4 orientations = true ->
    provided_ok 3 scales = false ->
    visualize_case translations orientations scales marker_indices self
      (inl e, write_orientations orientations (write_positions translations self))
| case_indices_written mi :
    is_visible self = true ->
    provided_ok 3 translations = true ->
    provided_ok 4 orientations = true ->
    provided_ok 3 scales = true ->
    marker_indices = Some mi ->
    rank1 (indices_as_numpy mi) = true ->
    visualize_case translations orientations scales marker_indices self
      (inr tt,
       set_count (leading_dim (indices_as_numpy mi))
         (SetProtoIndices (IntArray_FromNumpy (indices_as_numpy mi))
            (write_arrays translations orientations scales self)))
| case_indices_rejected mi :
    is_visible self = true ->
    provided_ok 3 translations = true ->
    provided_ok 4 orientations = true ->
    provided_ok 3 scales = true ->
    marker_indices = Some mi ->
    rank1 (indices_as_numpy mi) = false ->
    visualize_case translations orientations scales marker_indices self
      (inl (ValueError (shape_msg "marker_indices" "(M,)" (shape (indices_as_numpy mi)))),
       write_arrays translations orientations scales self)
| case_count_unchanged :
    is_visible self = true ->
    provided_ok 3 translations = true ->
    provided_ok 4 orientations = true ->
    provided_ok 3 scales = true ->
    marker_indices = None ->
    implied_count translations orientations scales = _count self ->
    visualize_case translations orientations scales marker_indices self
      (inr tt,
       set_count (implied_count translations orientations scales)
         (write_arrays translations orientations scales self))
| case_zero_markers :
    is_visible self = true ->
    provided_ok 3 translations = true ->
    provided_ok 4 orientations = true ->
    provided_ok 3 scales = true ->
    marker_indices = None ->
    implied_count translations orientations scales <> _count self ->
    implied_count translations orientations scales = 0 ->
    visualize_case translations orientations scales marker_indices self
      (inl (ValueError zero_markers_msg),
       write_arrays translations orientations scales self)
| case_indices_reset :
    is_visible self = true ->
    provided_ok 3 translations = true ->
    provided_ok 4 orientations = true ->
    provided_ok 3 scales = true ->
    marker_indices = None ->
    implied_count translations orientations scales <> _count self ->
    implied_count translations orientations scales <> 0 ->
    visualize_case translations orientations scales marker_indices self
      (inr tt,
       set_count (implied_count translations orientations scales)
         (SetProtoIndices (repeat 0%Z (implied_count translations orientations scales))
            (write_arrays translations orientations scales self))).

(** The arguments with which a call on a visible group returns normally:
    every provided array passes its shape check, and the zero-markers test
    is not met. *)
Definition accepted (translations orientations scales : option (array_like F))
    (marker_indices : option indices_like) (self : VisualizationMarkers) : bool :=
  provided_ok 3 translations && provided_ok 4 orientations && provided_ok 3 scales
  && indices_ok marker_indices
  && negb (match marker_indices with
           | Some _ => false
           | None => (implied_count translations orientations scales =? 0)
                     && negb (_count self =? 0)
           end).

(** The recorded count is the length of the prototype-index array on the
    instancer. *)
Definition count_matches_indices (self : VisualizationMarkers) : bool :=
  match protoIndices (_instancer_manager self) with
  | Some indices => List.length indices =? _count self
  | None => false
  end.

(** The [usd_path] local of [_add_markers_prototypes]. *)
Definition usd_path_of (cfg : MarkerCfg) : option string :=
  match cfg with
  | PrimMarkerCfg _ => None
  | FileMarkerCfg _ usd_path => Some usd_path
  end.

(** The prim the loop of [_add_markers_prototypes] is meant to leave on the
    stage for an entry: created from the entry, hidden from secondary rays,
    with the entry's visibility and colour. *)
Definition prototype_prim (parent name : string) (cfg : MarkerCfg) : Prim :=
  {| path := (parent ++ "/" ++ name)%string;
     type_name := prim_type (fields_of cfg);
     reference := usd_path_of cfg;
     xform_scale := scale (fields_of cfg);
     prim_attributes := attributes (fields_of cfg);
     prim_visible := visible (fields_of cfg);
     invisibleToSecondaryRays := true;
     visual_material := color (fields_of cfg) |}.

(** The object after one turn of the loop of [_add_markers_prototypes] on
    an entry that passed the checks: the five host calls of lines 396-421
    in their order. *)
Definition prototype_turn (name : string) (cfg : MarkerCfg)
    (self : VisualizationMarkers) : VisualizationMarkers :=
  let marker_prim_path := (prim_path self ++ "/" ++ name)%string in
  let f := fields_of cfg in
  AddTarget marker_prim_path
    (with_stage (fun st =>
       let st := st ++ [create_prim marker_prim_path (prim_type f) (usd_path_of cfg)
                          (scale f) (attributes f)] in
       let st := on_prim marker_prim_path (set_invisibleToSecondaryRays true) st in
       let st := on_prim marker_prim_path (set_prim_visibility (visible f)) st in
       match color f with
       | Some rgb => on_prim marker_prim_path (apply_visual_material rgb) st
       | None => st
       end) self).

End Markers.

Arguments VisualizationMarkers : clear implicits.
Arguments VisualizationMarkersCfg : clear implicits.
Arguments MarkerCfg : clear implicits.
Arguments MarkerFields : clear implicits.
Arguments PointInstancer : clear implicits.
Arguments Prim : clear implicits.
Arguments Method : clear implicits.

(** * A concrete marker group

    The two-sphere configuration of the class docstring, the object its
    construction yields, and a few arrays, for the closed examples below.
    Scalars are taken in [Z]. *)

(** An integer stands for the float of the same value.  Narrowing such a
    float keeps [bits] significant bits and rounds to nearest, ties to
    even: 24 bits for single precision, 11 for half precision.  (A
    magnitude past the largest finite value of the format, which a
    conversion sends to infinity, has no integer to stand for it; the
    examples stay below.) *)
Definition round_to_bits (bits z : Z) : Z :=
  let a := Z.abs z in
  if (a <? 2 ^ bits)%Z then z
  else
    let k := (Z.log2 a + 1 - bits)%Z in
    let q := (a / 2 ^ k)%Z in
    let r := (a mod 2 ^ k)%Z in
    let half := (2 ^ (k - 1))%Z in
    let q' := if (r <? half)%Z then q
              else if (half <? r)%Z then (q + 1)%Z
              else if Z.even q then q else (q + 1)%Z in
    (Z.sgn z * (q' * 2 ^ k))%Z.

#[global] Instance integer_floats : HostFloats Z :=
  {| to_float32 := round_to_bits 24; to_half := round_to_bits 11 |}.

Module Demo.

Definition sphere (rgb : list Z) : MarkerFields Z unit :=
  {| visible := true; prim_type := "Sphere"; scale := None;
     color := Some rgb; attributes := Some [("radius"%string, tt)] |}.

Definition two_spheres : VisualizationMarkersCfg Z unit :=
  {| markers := [("marker1"%string, PrimMarkerCfg (sphere [1; 0; 0]%Z));
                 ("marker2"%string, PrimMarkerCfg (sphere [0; 1; 0]%Z))] |}.

(** A host file system on which only [frame.usd] resolves, and a stage on
    which every requested path is free. *)
Definition file_system (usd_path : string) : bool := String.eqb usd_path "frame.usd".
Definition free_path (requested : string) : string := requested.

Definition construct (c : VisualizationMarkersCfg Z unit) : exn + VisualizationMarkers Z unit :=
  __init__ 0%Z file_system free_path "/World/Visuals/testMarkers" c.

(** The object [construct two_spheres] yields: one instance at the origin. *)
Definition group : VisualizationMarkers Z unit :=
  {| prim_path := "/World/Visuals/testMarkers";
     cfg := two_spheres;
     _instancer_manager :=
       {| visibility := inherited;
          positions := Some [[0; 0; 0]%Z];
          orientations := None;
          scales := None;
          protoIndices := Some [0%Z];
          prototypes := ["/World/Visuals/testMarkers/marker1"%string;
                         "/World/Visuals/testMarkers/marker2"%string] |};
     stage :=
       [{| path := "/World/Visuals/testMarkers/marker1"; type_name := "Sphere";
           reference := None; xform_scale := None;
           prim_attributes := Some [("radius"%string, tt)]; prim_visible := true;
           invisibleToSecondaryRays := true; visual_material := Some [1; 0; 0]%Z |};
        {| path := "/World/Visuals/testMarkers/marker2"; type_name := "Sphere";
           reference := None; xform_scale := None;
           prim_attributes := Some [("radius"%string, tt)]; prim_visible := true;
           invisibleToSecondaryRays := true; visual_material := Some [0; 1; 0]%Z |}];
     _count := 1 |}.

(** [group] after [set_visibility(False)]. *)
Definition hidden : VisualizationMarkers Z unit := snd (set_visibility false group).

(** [group] after [visualize(marker_indices=[])]. *)
Definition emptied : VisualizationMarkers Z unit :=
  snd (visualize None None None (Some (IndexList [])) group).

Definition array (shape : list nat) (data : list Z) : option (array_like Z) :=
  Some (NdArray (mk_ndarray shape data)).

(** Configurations that [_add_markers_prototypes] refuses. *)
Definition xform_fields : MarkerFields Z unit :=
  {| visible := true; prim_type := "Xform"; scale := None; color := None; attributes := None |}.

Definition cone_fields : MarkerFields Z unit :=
  {| visible := true; prim_type := "Cone"; scale := None; color := None; attributes := None |}.

Definition empty_container_cfg : VisualizationMarkersCfg Z unit :=
  {| markers := [("frame"%string, PrimMarkerCfg xform_fields)] |}.

Definition missing_file_cfg : VisualizationMarkersCfg Z unit :=
  {| markers := [("arrow"%string, FileMarkerCfg cone_fields "missing.usd")] |}.

(** A non-file Xform marker ahead of a file marker whose file is missing. *)
Definition xform_then_missing_cfg : VisualizationMarkersCfg Z unit :=
  {| markers := [("frame"%string, PrimMarkerCfg xform_fields);
                 ("arrow"%string, FileMarkerCfg cone_fields "missing.usd")] |}.

(** Two more entries for a loop on [group]: a sphere, then a non-file
    Xform marker, then a sphere the loop never reaches. *)
Definition sphere_xform_sphere : list (string * MarkerCfg Z unit) :=
  [("marker3"%string, PrimMarkerCfg (sphere [0; 0; 1]%Z));
   ("frame"%string, PrimMarkerCfg xform_fields);
   ("marker4"%string, PrimMarkerCfg (sphere [1; 1; 0]%Z))].

End Demo.


(** * Properties *)

Section Properties.
Context {F Any : Type} {host : HostFloats F}.
Variable fzero : F.
Variable check_file_path : string -> bool.
Variable get_next_free_path : string -> string.

Implicit Types (s self : VisualizationMarkers F Any).
Implicit Types (t o sc : option (array_like F)) (mi : option indices_like).

(** ** The monad *)


Lemma bind_ok {S A B} (m : M S A) (k : A -> M S B) (st st' : S) (a : A) :
  m st = (inr a, st') -> bind m k st = k a st'.
Proof. intros H. unfold bind. now rewrite H. Qed.

Lemma bind_raise {S A B} (m : M S A) (k : A -> M S B) (st st' : S) (e : exn) :
  m st = (inl e, st') -> bind m k st = (inl e, st').
Proof. intros H. unfold bind. now rewrite H. Qed.

(** ** The blocks of [visualize], one at a time *)

Lemma rank2_width_shape {A} k (a : ndarray A) :
  rank2_width k a = true -> shape a = [leading_dim a; k].
Proof.
  unfold rank2_width, leading_dim.
  destruct (shape a) as [|m [|w [|? ?]]]; try discriminate.
  intros H. apply Nat.eqb_eq in H. now subst.
Qed.

Lemma rank1_shape {A} (a : ndarray A) :
  rank1 a = true -> shape a = [leading_dim a].
Proof.
  unfold rank1, leading_dim.
  destruct (shape a) as [|m [|? ?]]; try discriminate. reflexivity.
Qed.

Lemma visualize_position_ok t n s :
  provided_ok 3 t = true ->
  visualize_position t n s = (inr (dim_or t n), write_positions t s).
Proof.
  destruct t as [x|]; [|reflexivity].
  intros H. apply rank2_width_shape in H.
  unfold visualize_position, dim_or, write_positions, bind, tuple_getitem.
  cbv zeta. rewrite H. reflexivity.
Qed.

Lemma visualize_orientation_ok o n s :
  provided_ok 4 o = true ->
  visualize_orientation o n s = (inr (dim_or o n), write_orientations o s).
Proof.
  destruct o as [x|]; [|reflexivity].
  intros H. apply rank2_width_shape in H.
  unfold visualize_orientation, dim_or, write_orientations, bind, tuple_getitem.
  cbv zeta. change (shape (convert_quat_xyzw (as_numpy x))) with (shape (as_numpy x)).
  rewrite H. reflexivity.
Qed.

Lemma visualize_scales_ok sc n s :
  provided_ok 3 sc = true ->
  visualize_scales sc n s = (inr (dim_or sc n), write_scales sc s).
Proof.
  destruct sc as [x|]; [|reflexivity].
  intros H. apply rank2_width_shape in H.
  unfold visualize_scales, dim_or, write_scales, bind, tuple_getitem.
  cbv zeta. rewrite H. reflexivity.
Qed.

Lemma visualize_status_indices (mi : indices_like) n s :
  rank1 (indices_as_numpy mi) = true ->
  visualize_status (Some mi) n s
  = (inr (leading_dim (indices_as_numpy mi)),
     SetProtoIndices (IntArray_FromNumpy (indices_as_numpy mi)) s).
Proof.
  intros H. apply rank1_shape in H.
  unfold visualize_status, bind, get, tuple_getitem.
  cbv zeta. rewrite H. reflexivity.
Qed.

Lemma visualize_status_bad_rank (mi : indices_like) n s :
  rank1 (indices_as_numpy mi) = false ->
  visualize_status (Some mi) n s
  = (inl (ValueError (shape_msg "marker_indices" "(M,)" (shape (indices_as_numpy mi)))), s).
Proof.
  intros H. unfold visualize_status, bind, get. cbv zeta.
  unfold rank1 in H.
  destruct (shape (indices_as_numpy mi)) as [|m [|? ?]]; try discriminate; reflexivity.
Qed.

Lemma visualize_status_default n s :
  n <> _count s -> n <> 0 ->
  visualize_status None n s = (inr n, SetProtoIndices (repeat 0%Z n) s).
Proof.
  intros Hc Hz. unfold visualize_status, bind, get. cbn [orb].
  apply Nat.eqb_neq in Hc. apply Nat.eqb_neq in Hz. rewrite Hc, Hz. reflexivity.
Qed.

Lemma visualize_status_zero s :
  _count s <> 0 ->
  visualize_status None 0 s = (inl (ValueError zero_markers_msg), s).
Proof.
  intros Hc. unfold visualize_status, bind, get. cbn [orb].
  destruct (_count s) as [|c]; [congruence|reflexivity].
Qed.

Lemma visualize_status_same s :
  visualize_status None (_count s) s = (inr (_count s), s).
Proof.
  unfold visualize_status, bind, get. cbn [orb].
  rewrite Nat.eqb_refl. reflexivity.
Qed.

(** A block whose array has fewer than two dimensions dies on
    [shape[1]]; one of rank two or more with the wrong width or a third
    dimension raises the [ValueError] of its argument.  Either way the
    object is left as the block found it. *)
Ltac block_index_error H :=
  unfold visualize_position, visualize_orientation, visualize_scales,
    bind, tuple_getitem;
  cbv zeta; rewrite H; reflexivity.

Lemma visualize_position_rank1 (x : array_like F) d n s :
  shape (as_numpy x) = [d] ->
  visualize_position (Some x) n s = (inl (IndexError "tuple index out of range"), s).
Proof. intros H. block_index_error H. Qed.

Lemma visualize_orientation_rank1 (x : array_like F) d n s :
  shape (as_numpy x) = [d] ->
  visualize_orientation (Some x) n s = (inl (IndexError "tuple index out of range"), s).
Proof. intros H. block_index_error H. Qed.

Lemma visualize_scales_rank1 (x : array_like F) d n s :
  shape (as_numpy x) = [d] ->
  visualize_scales (Some x) n s = (inl (IndexError "tuple index out of range"), s).
Proof. intros H. block_index_error H. Qed.

Lemma width_check_fails {A} k (a : ndarray A) d0 d1 rest :
  shape a = d0 :: d1 :: rest ->
  rank2_width k a = false ->
  negb (d1 =? k) || negb (List.length (d0 :: d1 :: rest) =? 2) = true.
Proof.
  unfold rank2_width. intros ->.
  destruct rest as [|d2 rest]; cbn.
  - intros ->. reflexivity.
  - intros _. apply orb_true_r.
Qed.

Lemma visualize_position_shape_error (x : array_like F) d0 d1 rest n s :
  shape (as_numpy x) = d0 :: d1 :: rest ->
  rank2_width 3 (as_numpy x) = false ->
  visualize_position (Some x) n s
  = (inl (ValueError (shape_msg "translations" "(M, 3)" (shape (as_numpy x)))), s).
Proof.
  intros H Hbad. apply (width_check_fails _ _ _ _ _ H) in Hbad.
  unfold visualize_position, bind, tuple_getitem. cbv zeta.
  rewrite H. cbn [nth_error ret]. rewrite Hbad. reflexivity.
Qed.

Lemma visualize_orientation_shape_error (x : array_like F) d0 d1 rest n s :
  shape (as_numpy x) = d0 :: d1 :: rest ->
  rank2_width 4 (as_numpy x) = false ->
  visualize_orientation (Some x) n s
  = (inl (ValueError (shape_msg "orientations" "(M, 4)" (shape (as_numpy x)))), s).
Proof.
  intros H Hbad. apply (width_check_fails _ _ _ _ _ H) in Hbad.
  unfold visualize_orientation, bind, tuple_getitem. cbv zeta.
  rewrite H. cbn [nth_error ret]. rewrite Hbad. reflexivity.
Qed.

Lemma visualize_scales_shape_error (x : array_like F) d0 d1 rest n s :
  shape (as_numpy x) = d0 :: d1 :: rest ->
  rank2_width 3 (as_numpy x) = false ->
  visualize_scales (Some x) n s
  = (inl (ValueError (shape_msg "scales" "(M, 3)" (shape (as_numpy x)))), s).
Proof.
  intros H Hbad. apply (width_check_fails _ _ _ _ _ H) in Hbad.
  unfold visualize_scales, bind, tuple_getitem. cbv zeta.
  rewrite H. cbn [nth_error ret]. rewrite Hbad. reflexivity.
Qed.

Lemma visualize_orientation_rejects (x : array_like F) n s :
  rank2_width 4 (as_numpy x) = false ->
  exists e, visualize_orientation (Some x) n s = (inl e, s).
Proof.
  intros Hbad.
  destruct (shape (as_numpy x)) as [|d0 [|d1 rest]] eqn:H.
  - eexists. unfold visualize_orientation, bind, tuple_getitem.
    cbv zeta. rewrite H. reflexivity.
  - eexists. apply (visualize_orientation_rank1 x d0 n s H).
  - eexists. apply (visualize_orientation_shape_error x d0 d1 rest n s H Hbad).
Qed.

(** ** What each block leaves alone *)

Ltac break_match :=
  match goal with
  | |- context [match ?x with _ => _ end] =>
      lazymatch x with
      | context [match _ with _ => _ end] => fail
      | _ => destruct x eqn:?
      end
  end.

Lemma visualize_position_frame t n s :
  orientations (_instancer_manager (snd (visualize_position t n s)))
  = orientations (_instancer_manager s).
Proof.
  unfold visualize_position, bind, tuple_getitem, modify, raise, ret.
  repeat (break_match; cbn); reflexivity.
Qed.

Lemma visualize_scales_frame sc n s :
  orientations (_instancer_manager (snd (visualize_scales sc n s)))
  = orientations (_instancer_manager s)
  /\ _count (snd (visualize_scales sc n s)) = _count s.
Proof.
  unfold visualize_scales, bind, tuple_getitem, modify, raise, ret.
  repeat (break_match; cbn); split; reflexivity.
Qed.

Lemma visualize_status_frame mi n s :
  orientations (_instancer_manager (snd (visualize_status mi n s)))
  = orientations (_instancer_manager s)
  /\ _count (snd (visualize_status mi n s)) = _count s.
Proof.
  unfold visualize_status, bind, tuple_getitem, get, modify, raise, ret.
  repeat (break_match; cbn); split; reflexivity.
Qed.

Lemma visualize_tail_orientations sc mi n s :
  orientations (_instancer_manager (snd
    ((n <- visualize_scales sc n ;;
      n <- visualize_status mi n ;;
      modify (set_count n)) s)))
  = orientations (_instancer_manager s).
Proof.
  destruct (visualize_scales_frame sc n s) as [H1 _]. unfold bind.
  destruct (visualize_scales sc n s) as [[e|n1] s1]; cbn [snd] in *; [exact H1|].
  destruct (visualize_status_frame mi n1 s1) as [H2 _].
  destruct (visualize_status mi n1 s1) as [[e|n2] s2];
    cbn [snd modify set_count _instancer_manager] in *; congruence.
Qed.

(** ** What the array writes leave alone *)

Lemma write_arrays_count t o sc s : _count (write_arrays t o sc s) = _count s.
Proof. destruct t, o, sc; reflexivity. Qed.

Lemma write_arrays_protoIndices t o sc s :
  protoIndices (_instancer_manager (write_arrays t o sc s))
  = protoIndices (_instancer_manager s).
Proof. destruct t, o, sc; reflexivity. Qed.

(** ** [visualize] up to the status block *)

Lemma visualize_invisible t o sc mi s :
  is_visible s = false -> visualize t o sc mi s = (inr tt, s).
Proof.
  intros H. unfold visualize, bind, get. now rewrite H.
Qed.

Lemma visualize_visible t o sc mi s :
  is_visible s = true ->
  visualize t o sc mi s
  = (n <- visualize_position t 0 ;;
     n <- visualize_orientation o n ;;
     n <- visualize_scales sc n ;;
     n <- visualize_status mi n ;;
     modify (set_count n)) s.
Proof.
  intros H. unfold visualize. unfold bind at 1. unfold get at 1.
  now rewrite H.
Qed.

Lemma visualize_arrays_ok t o sc mi s :
  is_visible s = true ->
  provided_ok 3 t = true -> provided_ok 4 o = true -> provided_ok 3 sc = true ->
  visualize t o sc mi s
  = (n <- visualize_status mi (implied_count t o sc) ;; modify (set_count n))
      (write_arrays t o sc s).
Proof.
  intros Hv Ht Ho Hsc. rewrite (visualize_visible _ _ _ _ _ Hv).
  rewrite (bind_ok _ _ _ _ _ (visualize_position_ok t 0 s Ht)).
  rewrite (bind_ok _ _ _ _ _ (visualize_orientation_ok o _ _ Ho)).
  rewrite (bind_ok _ _ _ _ _ (visualize_scales_ok sc _ _ Hsc)).
  reflexivity.
Qed.

(** ** The hidden fast path *)

(** C4.  While [is_visible()] is false, [visualize] returns at once whatever
    its arguments are (null, well-formed or malformed): no exception, and
    the object, that is [_count] and every attribute of the instancer, is
    exactly what it was. *)
Theorem visualize_hidden_is_noop t o sc mi s :
  is_visible s = false ->
  fst (visualize t o sc mi s) = inr tt
  /\ snd (visualize t o sc mi s) = s
  /\ _count (snd (visualize t o sc mi s)) = _count s
  /\ positions (_instancer_manager (snd (visualize t o sc mi s)))
     = positions (_instancer_manager s)
  /\ orientations (_instancer_manager (snd (visualize t o sc mi s)))
     = orientations (_instancer_manager s)
  /\ scales (_instancer_manager (snd (visualize t o sc mi s)))
     = scales (_instancer_manager s)
  /\ protoIndices (_instancer_manager (snd (visualize t o sc mi s)))
     = protoIndices (_instancer_manager s).
Proof.
  intros H. rewrite (visualize_invisible t o sc mi s H). cbn [fst snd].
  repeat split.
Qed.

(** ** The tracked count *)

(** C1, as amended.  On a visible group, when at least one argument is
    provided, every provided array passes its shape validation and M is the
    leading dimension of the last provided argument in the order
    translations, orientations, scales, marker_indices: the call succeeds
    and [_count] becomes M, except when [marker_indices] is null, M is 0 and
    the previous count is not 0; there the call raises the zero-markers
    [ValueError] and [_count] keeps its previous value. *)
Theorem visualize_count_last_provided t o sc mi s (m : nat) :
  is_visible s = true ->
  provided_ok 3 t = true -> provided_ok 4 o = true -> provided_ok 3 sc = true ->
  indices_ok mi = true ->
  last_provided_dim t o sc mi = Some m ->
  (mi <> None \/ m <> 0 \/ _count s = 0 ->
     fst (visualize t o sc mi s) = inr tt
     /\ _count (snd (visualize t o sc mi s)) = m)
  /\ (mi = None -> m = 0 -> _count s <> 0 ->
     fst (visualize t o sc mi s) = inl (ValueError zero_markers_msg)
     /\ _count (snd (visualize t o sc mi s)) = _count s).
Proof.
  intros Hv Ht Ho Hsc Hmi Hlast.
  rewrite (visualize_arrays_ok t o sc mi s Hv Ht Ho Hsc).
  destruct mi as [x|].
  - (* marker_indices provided: its length wins *)
    cbn in Hmi, Hlast. injection Hlast as <-.
    rewrite (bind_ok _ _ _ _ _ (visualize_status_indices x _ _ Hmi)).
    split; [intros _; split; reflexivity | intros Hnone; discriminate].
  - (* marker_indices null: the implied count is M *)
    assert (Him : implied_count t o sc = m).
    { unfold implied_count, dim_or. unfold last_provided_dim in Hlast.
      destruct sc, o, t; congruence. }
    rewrite Him. clear Hlast Him.
    pose proof (write_arrays_count t o sc s) as Hc.
    set (s1 := write_arrays t o sc s) in *.
    destruct (Nat.eq_dec m (_count s)) as [Heq|Hne].
    + subst m. rewrite <- Hc.
      rewrite (bind_ok _ _ _ _ _ (visualize_status_same s1)).
      split; [intros _; split; reflexivity|].
      intros _ Hz Hnz. rewrite Hc in Hz. congruence.
    + destruct m as [|m'].
      * assert (Hnz : _count s1 <> 0) by (rewrite Hc; congruence).
        rewrite (bind_raise _ _ _ _ _ (visualize_status_zero s1 Hnz)).
        split; [|intros _ _ _; split; [reflexivity|exact Hc]].
        intros [Hn|[Hn|Hn]]; congruence.
      * assert (H1 : S m' <> _count s1) by (rewrite Hc; exact Hne).
        rewrite (bind_ok _ _ _ _ _ (visualize_status_default (S m') s1 H1 (Nat.neq_succ_0 m'))).
        split; [intros _; split; reflexivity | intros _ Hz; discriminate].
Qed.

(** ** Prototype-index reconciliation *)

Lemma int32_fits z : fits_int32 z -> int32 z = z.
Proof.
  unfold fits_int32, int32. intros H.
  rewrite Z.mod_small by lia. lia.
Qed.

Lemma IntArray_FromNumpy_fits (a : ndarray Z) :
  Forall fits_int32 (data a) -> IntArray_FromNumpy a = data a.
Proof.
  unfold IntArray_FromNumpy. induction 1 as [|z l Hz _ IH]; [reflexivity|].
  cbn [map]. now rewrite (int32_fits z Hz), IH.
Qed.

(** C2, as amended.  On a visible group whose provided translations,
    orientations and scales pass their shape validation: a provided
    [marker_indices] of rank 1 is written with every index narrowed to a
    signed 32-bit integer, hence verbatim when every index fits in 32
    bits, and its length becomes the count (one of another rank raises the
    shape [ValueError] and nothing is written); with [marker_indices] null
    and an implied count that differs from the recorded one, an all-zeros
    array of the new length is written, or the zero-markers [ValueError] is
    raised when that count is 0; with [marker_indices] null and an implied
    count equal to the recorded one, the prototype indices are not
    rewritten. *)
Theorem visualize_prototype_indices t o sc mi s :
  is_visible s = true ->
  provided_ok 3 t = true -> provided_ok 4 o = true -> provided_ok 3 sc = true ->
  (forall x, mi = Some x -> rank1 (indices_as_numpy x) = true ->
     fst (visualize t o sc mi s) = inr tt
     /\ protoIndices (_instancer_manager (snd (visualize t o sc mi s)))
        = Some (map int32 (data (indices_as_numpy x)))
     /\ (Forall fits_int32 (data (indices_as_numpy x)) ->
         protoIndices (_instancer_manager (snd (visualize t o sc mi s)))
         = Some (data (indices_as_numpy x)))
     /\ _count (snd (visualize t o sc mi s)) = leading_dim (indices_as_numpy x))
  /\ (forall x, mi = Some x -> rank1 (indices_as_numpy x) = false ->
     fst (visualize t o sc mi s)
     = inl (ValueError (shape_msg "marker_indices" "(M,)" (shape (indices_as_numpy x))))
     /\ protoIndices (_instancer_manager (snd (visualize t o sc mi s)))
        = protoIndices (_instancer_manager s))
  /\ (mi = None -> implied_count t o sc <> _count s -> implied_count t o sc <> 0 ->
     fst (visualize t o sc mi s) = inr tt
     /\ protoIndices (_instancer_manager (snd (visualize t o sc mi s)))
        = Some (repeat 0%Z (implied_count t o sc))
     /\ _count (snd (visualize t o sc mi s)) = implied_count t o sc)
  /\ (mi = None -> implied_count t o sc <> _count s -> implied_count t o sc = 0 ->
     fst (visualize t o sc mi s) = inl (ValueError zero_markers_msg)
     /\ protoIndices (_instancer_manager (snd (visualize t o sc mi s)))
        = protoIndices (_instancer_manager s))
  /\ (mi = None -> implied_count t o sc = _count s ->
     fst (visualize t o sc mi s) = inr tt
     /\ protoIndices (_instancer_manager (snd (visualize t o sc mi s)))
        = protoIndices (_instancer_manager s)).
Proof.
  intros Hv Ht Ho Hsc.
  rewrite (visualize_arrays_ok t o sc mi s Hv Ht Ho Hsc).
  pose proof (write_arrays_count t o sc s) as Hc.
  pose proof (write_arrays_protoIndices t o sc s) as Hp.
  set (s1 := write_arrays t o sc s) in *.
  set (n := implied_count t o sc).
  split; [|split; [|split; [|split]]].
  - intros x -> Hx.
    rewrite (bind_ok _ _ _ _ _ (visualize_status_indices x n s1 Hx)).
    split; [reflexivity|]. split; [reflexivity|]. split; [|reflexivity].
    intros Hfit. cbn [snd modify set_count SetProtoIndices with_instancer
                      _instancer_manager protoIndices].
    now rewrite (IntArray_FromNumpy_fits _ Hfit).
  - intros x -> Hx.
    rewrite (bind_raise _ _ _ _ _ (visualize_status_bad_rank x n s1 Hx)).
    split; [reflexivity|exact Hp].
  - intros -> Hne Hnz. rewrite <- Hc in Hne.
    rewrite (bind_ok _ _ _ _ _ (visualize_status_default n s1 Hne Hnz)).
    repeat split.
  - intros -> Hne Hz. rewrite <- Hc, Hz in Hne. rewrite Hz.
    assert (Hnz : _count s1 <> 0) by congruence.
    rewrite (bind_raise _ _ _ _ _ (visualize_status_zero s1 Hnz)).
    split; [reflexivity|exact Hp].
  - intros -> Heq. rewrite <- Hc in Heq. rewrite Heq.
    rewrite (bind_ok _ _ _ _ _ (visualize_status_same s1)).
    split; [reflexivity|exact Hp].
Qed.

(** ** Degenerate calls *)

Lemma set_count_same s : set_count (_count s) s = s.
Proof. destruct s; reflexivity. Qed.

(** With every argument null and a recorded count other than 0, the call
    raises the zero-markers [ValueError] and leaves the object alone. *)
Lemma visualize_no_input_raises s :
  is_visible s = true -> _count s <> 0 ->
  visualize None None None None s = (inl (ValueError zero_markers_msg), s).
Proof.
  intros Hv Hc.
  rewrite (visualize_arrays_ok None None None None s Hv eq_refl eq_refl eq_refl).
  apply bind_raise. apply (visualize_status_zero s Hc).
Qed.

(** C6, where the code departs from it.  With every argument null on a
    visible group whose recorded count is 0, [num_markers != self._count]
    is false, the status block is skipped and the call returns normally. *)
Theorem visualize_no_input_zero_count_returns s :
  is_visible s = true -> _count s = 0 ->
  visualize None None None None s = (inr tt, s).
Proof.
  intros Hv Hc.
  rewrite (visualize_arrays_ok None None None None s Hv eq_refl eq_refl eq_refl).
  change (implied_count None None None) with 0.
  change (write_arrays None None None s) with s.
  rewrite <- Hc.
  rewrite (bind_ok _ _ _ _ _ (visualize_status_same s)).
  unfold modify. now rewrite set_count_same.
Qed.

(** C10.  On a visible group, [visualize(marker_indices=e)] with [e] the
    empty rank-1 array, given as an array, a tensor or the list [[]], and
    no other argument succeeds: the empty index array is written and
    [_count] becomes 0. *)
Theorem visualize_empty_indices (x : indices_like) s :
  is_visible s = true ->
  indices_as_numpy x = mk_ndarray [0] [] ->
  visualize None None None (Some x) s = (inr tt, set_count 0 (SetProtoIndices [] s))
  /\ protoIndices (_instancer_manager (snd (visualize None None None (Some x) s))) = Some []
  /\ _count (snd (visualize None None None (Some x) s)) = 0.
Proof.
  intros Hv Hx.
  assert (Hr : rank1 (indices_as_numpy x) = true) by now rewrite Hx.
  rewrite (visualize_arrays_ok None None None (Some x) s Hv eq_refl eq_refl eq_refl).
  change (write_arrays None None None s) with s.
  rewrite (bind_ok _ _ _ _ _ (visualize_status_indices x _ s Hr)).
  rewrite Hx. repeat split.
Qed.

(** ** Failure half-way *)

(** C9.  [visualize] is not atomic: on a visible group, an accepted
    translations array together with an orientations array that fails its
    validation makes the call raise after the positions were written; the
    object is then the previous one with the new positions, so that
    orientations, scales, prototype indices and [_count] are the old ones. *)
Theorem visualize_not_atomic (x y : array_like F) sc mi s :
  is_visible s = true ->
  rank2_width 3 (as_numpy x) = true ->
  rank2_width 4 (as_numpy y) = false ->
  (exists e, fst (visualize (Some x) (Some y) sc mi s) = inl e)
  /\ snd (visualize (Some x) (Some y) sc mi s)
     = SetPositions (Vec3fArray_FromNumpy (as_numpy x)) s
  /\ positions (_instancer_manager (snd (visualize (Some x) (Some y) sc mi s)))
     = Some (Vec3fArray_FromNumpy (as_numpy x))
  /\ orientations (_instancer_manager (snd (visualize (Some x) (Some y) sc mi s)))
     = orientations (_instancer_manager s)
  /\ scales (_instancer_manager (snd (visualize (Some x) (Some y) sc mi s)))
     = scales (_instancer_manager s)
  /\ protoIndices (_instancer_manager (snd (visualize (Some x) (Some y) sc mi s)))
     = protoIndices (_instancer_manager s)
  /\ _count (snd (visualize (Some x) (Some y) sc mi s)) = _count s.
Proof.
  intros Hv Hx Hy.
  rewrite (visualize_visible _ _ _ _ _ Hv).
  rewrite (bind_ok _ _ _ _ _ (visualize_position_ok (Some x) 0 s Hx)).
  destruct (visualize_orientation_rejects y (dim_or (Some x) 0)
              (write_positions (Some x) s) Hy) as [e He].
  rewrite (bind_raise _ _ _ _ _ He). cbn [fst snd write_positions].
  split; [now exists e|]. repeat split.
Qed.

(** ** Arrays of rank 1 *)

(** C3, where the code departs from it.  A rank-1 array passed as
    translations, orientations or scales on a visible group does not reach
    the [ValueError] of the shape check: [shape[1]] is evaluated first and
    raises [IndexError]. *)
Theorem visualize_rank1_array_IndexError (x : array_like F) (d : nat) t o sc mi s :
  is_visible s = true ->
  shape (as_numpy x) = [d] ->
  visualize (Some x) o sc mi s = (inl (IndexError "tuple index out of range"), s)
  /\ (provided_ok 3 t = true ->
      visualize t (Some x) sc mi s
      = (inl (IndexError "tuple index out of range"), write_positions t s))
  /\ (provided_ok 3 t = true -> provided_ok 4 o = true ->
      visualize t o (Some x) mi s
      = (inl (IndexError "tuple index out of range"),
         write_orientations o (write_positions t s))).
Proof.
  intros Hv Hx. split; [|split].
  - rewrite (visualize_visible _ _ _ _ _ Hv).
    apply bind_raise. apply (visualize_position_rank1 x d 0 s Hx).
  - intros Ht. rewrite (visualize_visible _ _ _ _ _ Hv).
    rewrite (bind_ok _ _ _ _ _ (visualize_position_ok t 0 s Ht)).
    apply bind_raise. apply (visualize_orientation_rank1 x d _ _ Hx).
  - intros Ht Ho. rewrite (visualize_visible _ _ _ _ _ Hv).
    rewrite (bind_ok _ _ _ _ _ (visualize_position_ok t 0 s Ht)).
    rewrite (bind_ok _ _ _ _ _ (visualize_orientation_ok o _ _ Ho)).
    apply bind_raise. apply (visualize_scales_rank1 x d _ _ Hx).
Qed.

(** ** Orientations *)

Lemma rows_roll {A} m (buf : list A) :
  rows m 4 (roll_wxyz_to_xyzw buf) = map xyzw_of_wxyz (rows m 4 buf).
Proof.
  revert buf. induction m as [|m IH]; intros buf; [reflexivity|].
  destruct buf as [|w [|x [|y [|z rest]]]];
    cbn [rows roll_wxyz_to_xyzw firstn skipn map xyzw_of_wxyz];
    f_equal; try apply (IH []); apply IH.
Qed.

Lemma rows_width {A} m k (buf : list A) :
  List.length buf = m * k -> Forall (fun q => List.length q = k) (rows m k buf).
Proof.
  revert buf. induction m as [|m IH]; intros buf H; cbn [rows]; constructor.
  - rewrite length_firstn. cbn in H. lia.
  - apply IH. rewrite length_skipn. cbn in H. lia.
Qed.

Lemma quaternion_of_width4 {A} (q : list A) :
  List.length q = 4 -> exists w x y z, q = [w; x; y; z].
Proof.
  destruct q as [|w [|x [|y [|z [|? ?]]]]]; try discriminate.
  intros _. now exists w, x, y, z.
Qed.

Lemma roll_map {A} (f : A -> A) (buf : list A) :
  roll_wxyz_to_xyzw (map f buf) = map f (roll_wxyz_to_xyzw buf).
Proof.
  assert (H : forall n (l : list A), List.length l <= n ->
                roll_wxyz_to_xyzw (map f l) = map f (roll_wxyz_to_xyzw l)).
  { induction n as [|n IH]; intros l Hlen.
    - destruct l; [reflexivity|cbn in Hlen; lia].
    - destruct l as [|w [|x [|y [|z rest]]]]; try reflexivity.
      cbn [map roll_wxyz_to_xyzw]. do 4 f_equal. apply IH. cbn in Hlen. lia. }
  apply (H (List.length buf)). apply le_n.
Qed.

Lemma rows_map {A} (f : A -> A) m k (buf : list A) :
  rows m k (map f buf) = map (map f) (rows m k buf).
Proof.
  revert buf. induction m as [|m IH]; intros buf; [reflexivity|].
  cbn [rows map]. now rewrite firstn_map, skipn_map, IH.
Qed.

Lemma xyzw_of_wxyz_map {A} (f : A -> A) (q : list A) :
  xyzw_of_wxyz (map f q) = map f (xyzw_of_wxyz q).
Proof. destruct q as [|w [|x [|y [|z [|? ?]]]]]; reflexivity. Qed.

Lemma map_fixed {A} (f : A -> A) (l : list A) :
  Forall (fun v => f v = v) l -> map f l = l.
Proof. induction 1 as [|v l Hv _ IH]; [reflexivity|]. cbn. now rewrite Hv, IH. Qed.

(** C5, as amended.  An orientations array of shape (M, 4) passed to
    [visualize] is written to the instancer as its rows with every
    quaternion reordered from (w, x, y, z) to (x, y, z, w) and every
    component narrowed to the half precision of the host's quaternion
    array, and in no other form: after the call the orientations of the
    instancer are those rows, or, when the call returned or raised before
    the write, what they were.  They are those rows as soon as the group is
    visible and the translations, if any, are accepted, whatever the
    remaining arguments do afterwards.  Reordering and narrowing commute;
    when the buffer holds the M * 4 values its shape announces, every row
    is a quaternion and its image is that reordering; the single quaternion
    (w, x, y, z) is written as the narrowed (x, y, z, w); and components
    that narrowing leaves as they are, such as 0 and 1, are written
    exactly reordered. *)
Theorem visualize_orientations_reordered (q : array_like F) (m : nat) t sc mi s :
  shape (as_numpy q) = [m; 4] ->
  (orientations (_instancer_manager (snd (visualize t (Some q) sc mi s)))
   = orientations (_instancer_manager s)
   \/ orientations (_instancer_manager (snd (visualize t (Some q) sc mi s)))
      = Some (map xyzw_of_wxyz (rows m 4 (map to_half (data (as_numpy q))))))
  /\ (is_visible s = true -> provided_ok 3 t = true ->
      orientations (_instancer_manager (snd (visualize t (Some q) sc mi s)))
      = Some (map xyzw_of_wxyz (rows m 4 (map to_half (data (as_numpy q))))))
  /\ map xyzw_of_wxyz (rows m 4 (map to_half (data (as_numpy q))))
     = map (map to_half) (map xyzw_of_wxyz (rows m 4 (data (as_numpy q))))
  /\ (ndarray_wf (as_numpy q) ->
      Forall (fun row => exists w x y z,
                row = [w; x; y; z] /\ xyzw_of_wxyz row = [x; y; z; w])
             (rows m 4 (data (as_numpy q))))
  /\ (forall w x y z, m = 1 -> data (as_numpy q) = [w; x; y; z] ->
      is_visible s = true -> provided_ok 3 t = true ->
      orientations (_instancer_manager (snd (visualize t (Some q) sc mi s)))
      = Some [[to_half x; to_half y; to_half z; to_half w]])
  /\ (Forall (fun v => to_half v = v) (data (as_numpy q)) ->
      is_visible s = true -> provided_ok 3 t = true ->
      orientations (_instancer_manager (snd (visualize t (Some q) sc mi s)))
      = Some (map xyzw_of_wxyz (rows m 4 (data (as_numpy q))))).
Proof.
  intros Hq.
  assert (Hok : provided_ok 4 (Some q) = true).
  { unfold provided_ok, rank2_width. now rewrite Hq. }
  assert (Hwrite : forall n s1,
             orientations (_instancer_manager (snd
               ((n <- visualize_orientation (Some q) n ;;
                 n <- visualize_scales sc n ;;
                 n <- visualize_status mi n ;;
                 modify (set_count n)) s1)))
             = Some (map xyzw_of_wxyz (rows m 4 (map to_half (data (as_numpy q)))))).
  { intros n s1.
    rewrite (bind_ok _ _ _ _ _ (visualize_orientation_ok (Some q) n s1 Hok)).
    rewrite visualize_tail_orientations.
    cbn [write_orientations SetOrientations with_instancer _instancer_manager orientations].
    unfold QuathArray_FromNumpy.
    change (shape (convert_quat_xyzw (as_numpy q))) with (shape (as_numpy q)).
    rewrite Hq. cbn [nth data convert_quat_xyzw].
    now rewrite <- roll_map, rows_roll. }
  assert (Hw : is_visible s = true -> provided_ok 3 t = true ->
               orientations (_instancer_manager (snd (visualize t (Some q) sc mi s)))
               = Some (map xyzw_of_wxyz (rows m 4 (map to_half (data (as_numpy q)))))).
  { intros Hv Ht. rewrite (visualize_visible _ _ _ _ _ Hv).
    rewrite (bind_ok _ _ _ _ _ (visualize_position_ok t 0 s Ht)).
    apply Hwrite. }
  split; [|split; [exact Hw|split; [|split; [|split]]]].
  - destruct (is_visible s) eqn:Hv.
    + rewrite (visualize_visible _ _ _ _ _ Hv).
      pose proof (visualize_position_frame t 0 s) as Hframe.
      destruct (visualize_position t 0 s) as [[e|n1] s1] eqn:Hpos; cbn [snd] in Hframe.
      * left. rewrite (bind_raise _ _ _ _ _ Hpos). exact Hframe.
      * right. rewrite (bind_ok _ _ _ _ _ Hpos). apply Hwrite.
    + left. now rewrite (visualize_invisible _ _ _ _ _ Hv).
  - rewrite rows_map, !map_map. apply map_ext. intros row. apply xyzw_of_wxyz_map.
  - intros Hwf. unfold ndarray_wf in Hwf. rewrite Hq in Hwf. cbn in Hwf.
    assert (Hlen : List.length (data (as_numpy q)) = m * 4) by lia.
    apply rows_width in Hlen.
    eapply Forall_impl; [|exact Hlen].
    intros row Hrow. destruct (quaternion_of_width4 row Hrow) as (w & x & y & z & ->).
    now exists w, x, y, z.
  - intros w x y z -> Hd Hv Ht. rewrite (Hw Hv Ht), Hd. reflexivity.
  - intros Hfixed Hv Ht. rewrite (Hw Hv Ht). now rewrite (map_fixed _ _ Hfixed).
Qed.

(** ** Construction *)

(** One turn of the loop of [_add_markers_prototypes] on an entry that
    passes: the rest of the loop runs on an object with the same path and
    configuration and one more prototype target. *)
Lemma add_markers_prototypes_cons_ok name (m : MarkerCfg F Any) rest s :
  marker_ok check_file_path m = true ->
  exists s1,
    _add_markers_prototypes check_file_path ((name, m) :: rest) s
    = _add_markers_prototypes check_file_path rest s1
    /\ prim_path s1 = prim_path s
    /\ cfg s1 = cfg s
    /\ prototypes (_instancer_manager s1)
       = prototypes (_instancer_manager s) ++ [marker_prim_path s name].
Proof.
  intros Hok. unfold _add_markers_prototypes. cbn [for_each].
  destruct m as [f|f usd]; cbn [marker_ok] in Hok.
  - apply negb_true_iff in Hok.
    unfold bind at 1. unfold bind at 1. rewrite Hok.
    destruct (color f) as [rgb|] eqn:Hcol;
      (eexists; split;
       [unfold bind, get, modify, ret; cbn [fields_of]; rewrite Hcol; reflexivity
       |repeat split]).
  - apply andb_true_iff in Hok. destruct Hok as [Hfile Htype].
    unfold bind at 1. unfold bind at 1. rewrite Hfile, Htype. cbn [negb].
    destruct (color f) as [rgb|] eqn:Hcol;
      (eexists; split;
       [unfold bind, get, modify, ret; cbn [fields_of]; rewrite Hcol; reflexivity
       |repeat split]).
Qed.

Lemma add_markers_prototypes_cons_bad name (m : MarkerCfg F Any) rest s :
  marker_ok check_file_path m = false ->
  _add_markers_prototypes check_file_path ((name, m) :: rest) s
  = (inl (marker_error check_file_path m), s).
Proof.
  intros Hbad. unfold _add_markers_prototypes. cbn [for_each].
  unfold bind at 1. unfold bind at 1.
  destruct m as [f|f usd]; cbn [marker_ok marker_error] in *.
  - apply negb_false_iff in Hbad. now rewrite Hbad.
  - destruct (check_file_path usd); cbn [negb andb] in *; [|reflexivity].
    now rewrite Hbad.
Qed.

Lemma add_markers_prototypes_all_ok (ms : list (string * MarkerCfg F Any)) s :
  forallb (fun e => marker_ok check_file_path (snd e)) ms = true ->
  exists s',
    _add_markers_prototypes check_file_path ms s = (inr tt, s')
    /\ prim_path s' = prim_path s
    /\ cfg s' = cfg s
    /\ prototypes (_instancer_manager s')
       = prototypes (_instancer_manager s) ++ map (fun e => marker_prim_path s (fst e)) ms.
Proof.
  revert s. induction ms as [|[name m] rest IH]; intros s Hall.
  - exists s. cbn. rewrite app_nil_r. repeat split.
  - cbn [forallb snd] in Hall. apply andb_true_iff in Hall. destruct Hall as [Hm Hrest].
    destruct (add_markers_prototypes_cons_ok name m rest s Hm) as (s1 & Hstep & Hp & Hc & Ht).
    destruct (IH s1 Hrest) as (s' & Hrun & Hp' & Hc' & Ht').
    exists s'. rewrite Hstep. split; [exact Hrun|].
    split; [congruence|]. split; [congruence|].
    rewrite Ht', Ht, <- app_assoc. cbn [map fst app].
    unfold marker_prim_path. now rewrite Hp.
Qed.

Lemma add_markers_prototypes_first_bad pre name (m : MarkerCfg F Any) post s :
  forallb (fun e => marker_ok check_file_path (snd e)) pre = true ->
  marker_ok check_file_path m = false ->
  exists s',
    _add_markers_prototypes check_file_path (pre ++ (name, m) :: post) s
    = (inl (marker_error check_file_path m), s').
Proof.
  revert s. induction pre as [|[name0 m0] pre IH]; intros s Hpre Hbad.
  - exists s. apply add_markers_prototypes_cons_bad, Hbad.
  - cbn [forallb snd] in Hpre. apply andb_true_iff in Hpre. destruct Hpre as [Hm Hrest].
    destruct (add_markers_prototypes_cons_ok name0 m0 (pre ++ (name, m) :: post) s Hm)
      as (s1 & Hstep & _).
    destruct (IH s1 Hrest Hbad) as (s' & Hrun).
    exists s'. cbn [app]. now rewrite Hstep.
Qed.

Lemma first_bad_marker (ms : list (string * MarkerCfg F Any)) :
  existsb (fun e => negb (marker_ok check_file_path (snd e))) ms = true ->
  exists pre name m post,
    ms = pre ++ (name, m) :: post
    /\ forallb (fun e => marker_ok check_file_path (snd e)) pre = true
    /\ marker_ok check_file_path m = false.
Proof.
  induction ms as [|[name m] rest IH]; [discriminate|].
  cbn [existsb snd]. destruct (marker_ok check_file_path m) eqn:Hm; cbn [negb orb].
  - intros H. destruct (IH H) as (pre & name' & m' & post & -> & Hpre & Hbad).
    exists ((name, m) :: pre), name', m', post. cbn [forallb snd app].
    rewrite Hm. repeat split; assumption.
  - intros _. exists [], name, m, rest. repeat split. exact Hm.
Qed.

(** [__init__] past the emptiness test. *)
Lemma init_nonempty requested (c : VisualizationMarkersCfg F Any) :
  markers c <> [] ->
  __init__ fzero check_file_path get_next_free_path requested c
  = match _add_markers_prototypes check_file_path (markers c)
            {| prim_path := get_next_free_path requested; cfg := c;
               _instancer_manager := define_PointInstancer;
               stage := []; _count := 0 |} with
    | (inr _, s') =>
        inr (set_count 1 (SetPositions [[fzero; fzero; fzero]] (SetProtoIndices [0%Z] s')))
    | (inl e, _) => inl e
    end.
Proof.
  intros Hne. unfold __init__. cbv zeta.
  destruct (markers c) as [|e rest] eqn:Hm; [congruence|].
  cbn [List.length Nat.eqb]. unfold bind at 1. unfold ret at 1.
  unfold bind at 1.
  destruct (_add_markers_prototypes check_file_path (e :: rest) _) as [[err|[]] s']; reflexivity.
Qed.

(** C7, as amended.  An empty marker configuration is refused with a
    [ValueError]; a non-empty one whose every entry passes the checks of
    [_add_markers_prototypes] is accepted, and the object has as many
    prototypes as the configuration has entries, the i-th prototype target
    of the instancer being the prim of the i-th entry in the iteration order
    of the dictionary. *)
Theorem init_prototype_indices requested (c : VisualizationMarkersCfg F Any) :
  (markers c = [] ->
   __init__ fzero check_file_path get_next_free_path requested c
   = inl (ValueError "The `cfg.markers` cannot be empty. Received: {}"))
  /\ (markers c <> [] ->
      forallb (fun e => marker_ok check_file_path (snd e)) (markers c) = true ->
      exists self,
        __init__ fzero check_file_path get_next_free_path requested c = inr self
        /\ num_prototypes self = List.length (markers c)
        /\ List.length (prototypes (_instancer_manager self)) = List.length (markers c)
        /\ forall i name m,
             nth_error (markers c) i = Some (name, m) ->
             nth_error (prototypes (_instancer_manager self)) i
             = Some (marker_prim_path self name)).
Proof.
  split.
  - intros Hempty. unfold __init__. cbv zeta. rewrite Hempty. reflexivity.
  - intros Hne Hall. rewrite (init_nonempty requested c Hne).
    destruct (add_markers_prototypes_all_ok (markers c)
                {| prim_path := get_next_free_path requested; cfg := c;
                   _instancer_manager := define_PointInstancer;
                   stage := []; _count := 0 |} Hall)
      as (s' & Hrun & Hp & Hc & Ht).
    rewrite Hrun. eexists. split; [reflexivity|].
    unfold marker_prim_path in Ht.
    cbn [cfg prim_path _instancer_manager prototypes define_PointInstancer app] in Hp, Hc, Ht.
    unfold num_prototypes, marker_prim_path, set_count, SetPositions, SetProtoIndices,
      with_instancer.
    cbn [cfg prim_path _instancer_manager prototypes].
    rewrite Hc, Ht, Hp. split; [reflexivity|]. split.
    + now rewrite length_map.
    + intros i name m Hi. rewrite nth_error_map, Hi. reflexivity.
Qed.

(** C8, as amended.  Construction fails whenever some entry of the
    configuration does not pass the checks, and the exception is the one of
    the first such entry in iteration order ([marker_error]): the
    [ValueError] of a non-file marker of type Xform, the
    [FileNotFoundError] of a file marker whose file does not resolve, the
    [ValueError] of a file marker whose file resolves and whose type is not
    Xform. *)
Theorem init_fails_at_first_bad_marker requested (c : VisualizationMarkersCfg F Any) :
  existsb (fun e => negb (marker_ok check_file_path (snd e))) (markers c) = true ->
  exists pre name m post,
    markers c = pre ++ (name, m) :: post
    /\ forallb (fun e => marker_ok check_file_path (snd e)) pre = true
    /\ marker_ok check_file_path m = false
    /\ __init__ fzero check_file_path get_next_free_path requested c
       = inl (marker_error check_file_path m)
    /\ match m with
       | PrimMarkerCfg f =>
           prim_type f = "Xform"%string
           /\ marker_error check_file_path m
              = ValueError "Please use `FileMarkerCfg` for `prim_type` of `Xform`."
       | FileMarkerCfg f usd_path =>
           (check_file_path usd_path = false
            /\ marker_error check_file_path m
               = FileNotFoundError ("USD file for the marker not found at: " ++ usd_path)%string)
           \/ (check_file_path usd_path = true
               /\ prim_type f <> "Xform"%string
               /\ marker_error check_file_path m
                  = ValueError ("Please use `prim_type` of `Xform` for `FileMarkerCfg`. Received: "
                                ++ prim_type f ++ ".")%string)
       end.
Proof.
  intros Hbad.
  destruct (first_bad_marker (markers c) Hbad) as (pre & name & m & post & Hm & Hpre & Hm_bad).
  exists pre, name, m, post.
  split; [exact Hm|]. split; [exact Hpre|]. split; [exact Hm_bad|]. split.
  - assert (Hne : markers c <> []).
    { rewrite Hm. now destruct pre. }
    rewrite (init_nonempty requested c Hne), Hm.
    destruct (add_markers_prototypes_first_bad pre name m post
                {| prim_path := get_next_free_path requested; cfg := c;
                   _instancer_manager := define_PointInstancer;
                   stage := []; _count := 0 |} Hpre Hm_bad) as (s' & Hrun).
    now rewrite Hrun.
  - destruct m as [f|f usd]; cbn [marker_ok marker_error] in *.
    + apply negb_false_iff, String.eqb_eq in Hm_bad. now split.
    + destruct (check_file_path usd); cbn [andb] in Hm_bad.
      * right. apply String.eqb_neq in Hm_bad. now repeat split.
      * left. now split.
Qed.

End Properties.

(** * The properties on the concrete marker group *)

Lemma demo_group_constructed : Demo.construct Demo.two_spheres = inr Demo.group.
Proof. reflexivity. Qed.

(** C4 on the hidden group, with a rank-1 translations array, a scales
    array of width 2 and a rank-2 index array. *)
Lemma visualize_hidden_is_noop_witness :
  is_visible Demo.hidden = false
  /\ fst (visualize (Demo.array [3] [1; 2; 3]%Z) None (Demo.array [2; 2] [1; 2; 3; 4]%Z)
            (Some (IndexArray (NdArray (mk_ndarray [1; 2] [0; 1]%Z)))) Demo.hidden) = inr tt
  /\ snd (visualize (Demo.array [3] [1; 2; 3]%Z) None (Demo.array [2; 2] [1; 2; 3; 4]%Z)
            (Some (IndexArray (NdArray (mk_ndarray [1; 2] [0; 1]%Z)))) Demo.hidden) = Demo.hidden.
Proof.
  split; [reflexivity|].
  pose proof (visualize_hidden_is_noop
                (Demo.array [3] [1; 2; 3]%Z) None (Demo.array [2; 2] [1; 2; 3; 4]%Z)
                (Some (IndexArray (NdArray (mk_ndarray [1; 2] [0; 1]%Z)))) Demo.hidden
                eq_refl) as H.
  split; [exact (proj1 H)|exact (proj1 (proj2 H))].
Defined.

(** C1, as stated, fails on the freshly constructed group (count 1) called
    with an empty translations array of shape (0, 3): the array is
    accepted, the last provided leading dimension is 0, and yet the call
    raises and the count stays 1. *)
Lemma visualize_empty_translations_keeps_count :
  is_visible Demo.group = true
  /\ provided_ok 3 (Demo.array [0; 3] []) = true
  /\ last_provided_dim (Demo.array [0; 3] []) None None None = Some 0
  /\ fst (visualize (Demo.array [0; 3] []) None None None Demo.group)
     = inl (ValueError zero_markers_msg)
  /\ _count (snd (visualize (Demo.array [0; 3] []) None None None Demo.group)) = 1.
Proof. repeat split. Qed.

(** C1, as amended, on three translations. *)
Lemma visualize_count_last_provided_witness :
  is_visible Demo.group = true
  /\ last_provided_dim (Demo.array [3; 3] [1; 2; 3; 4; 5; 6; 7; 8; 9]%Z) None None None = Some 3
  /\ fst (visualize (Demo.array [3; 3] [1; 2; 3; 4; 5; 6; 7; 8; 9]%Z) None None None Demo.group)
     = inr tt
  /\ _count (snd (visualize (Demo.array [3; 3] [1; 2; 3; 4; 5; 6; 7; 8; 9]%Z)
                     None None None Demo.group)) = 3.
Proof.
  split; [reflexivity|]. split; [reflexivity|].
  apply (proj1 (visualize_count_last_provided
                  (Demo.array [3; 3] [1; 2; 3; 4; 5; 6; 7; 8; 9]%Z) None None None
                  Demo.group 3 eq_refl eq_refl eq_refl eq_refl eq_refl eq_refl)).
  right. left. discriminate.
Defined.

(** C2, as stated, fails twice.  On the group called with translations
    of shape (2, 2) and [marker_indices=[0, 1]] the call raises on the
    translations, the indices are not written and the count is not 2; and
    the index 2147483648 alone is accepted but written as -2147483648. *)
Lemma visualize_indices_unwritten_after_bad_translations :
  is_visible Demo.group = true
  /\ fst (visualize None None None (Some (IndexList [2147483648]%Z)) Demo.group) = inr tt
  /\ protoIndices (_instancer_manager
       (snd (visualize None None None (Some (IndexList [2147483648]%Z)) Demo.group)))
     = Some [(-2147483648)%Z]
  /\ fst (visualize (Demo.array [2; 2] [1; 2; 3; 4]%Z) None None
            (Some (IndexList [0; 1]%Z)) Demo.group)
     = inl (ValueError "Expected `translations` to have shape (M, 3). Received: (2, 2).")
  /\ protoIndices (_instancer_manager
       (snd (visualize (Demo.array [2; 2] [1; 2; 3; 4]%Z) None None
               (Some (IndexList [0; 1]%Z)) Demo.group))) = Some [0%Z]
  /\ _count (snd (visualize (Demo.array [2; 2] [1; 2; 3; 4]%Z) None None
                     (Some (IndexList [0; 1]%Z)) Demo.group)) = 1.
Proof. repeat split. Qed.

(** C2, as amended: three translations on a group of count 1 rewrite the
    prototype indices to three zeros. *)
Lemma visualize_prototype_indices_witness :
  is_visible Demo.group = true
  /\ implied_count (Demo.array [3; 3] [1; 2; 3; 4; 5; 6; 7; 8; 9]%Z) None None = 3
  /\ fst (visualize (Demo.array [3; 3] [1; 2; 3; 4; 5; 6; 7; 8; 9]%Z) None None None Demo.group)
     = inr tt
  /\ protoIndices (_instancer_manager
       (snd (visualize (Demo.array [3; 3] [1; 2; 3; 4; 5; 6; 7; 8; 9]%Z)
               None None None Demo.group))) = Some [0; 0; 0]%Z
  /\ _count (snd (visualize (Demo.array [3; 3] [1; 2; 3; 4; 5; 6; 7; 8; 9]%Z)
                     None None None Demo.group)) = 3.
Proof.
  split; [reflexivity|]. split; [reflexivity|].
  apply (proj1 (proj2 (proj2 (visualize_prototype_indices
                  (Demo.array [3; 3] [1; 2; 3; 4; 5; 6; 7; 8; 9]%Z) None None None
                  Demo.group eq_refl eq_refl eq_refl eq_refl))) eq_refl);
    discriminate.
Defined.

(** C3: a rank-1 translations array of shape (3,) on the group. *)
Lemma visualize_rank1_array_IndexError_witness :
  is_visible Demo.group = true
  /\ visualize (Demo.array [3] [1; 2; 3]%Z) None None None Demo.group
     = (inl (IndexError "tuple index out of range"), Demo.group).
Proof.
  split; [reflexivity|].
  exact (proj1 (visualize_rank1_array_IndexError
                  (NdArray (mk_ndarray [3] [1; 2; 3]%Z)) 3 None None None None
                  Demo.group eq_refl eq_refl)).
Defined.

(** C5, as stated, fails on the group called with the orientation
    (2049, 0, 0, 1): half precision has 11 significant bits, so the host
    receives (0, 0, 1, 2048), which is not the reordering (0, 0, 1, 2049)
    of the input. *)
Lemma visualize_orientation_narrowed_to_half :
  is_visible Demo.group = true
  /\ orientations (_instancer_manager
       (snd (visualize None (Demo.array [1; 4] [2049; 0; 0; 1]%Z) None None Demo.group)))
     = Some [[0; 0; 1; 2048]%Z]
  /\ map xyzw_of_wxyz (rows 1 4 [2049; 0; 0; 1]%Z) = [[0; 0; 1; 2049]%Z]
  /\ orientations (_instancer_manager
       (snd (visualize None (Demo.array [1; 4] [2049; 0; 0; 1]%Z) None None Demo.group)))
     <> Some (map xyzw_of_wxyz (rows 1 4 [2049; 0; 0; 1]%Z)).
Proof.
  split; [reflexivity|]. split; [reflexivity|]. split; [reflexivity|].
  intros H. discriminate H.
Qed.

(** C5, as amended: the identity quaternion (1, 0, 0, 0) reaches the host
    as (0, 0, 0, 1). *)
Lemma visualize_orientations_reordered_witness :
  is_visible Demo.group = true
  /\ orientations (_instancer_manager
       (snd (visualize None (Demo.array [1; 4] [1; 0; 0; 0]%Z) None None Demo.group)))
     = Some [[0; 0; 0; 1]%Z].
Proof.
  split; [reflexivity|].
  exact (proj1 (proj2 (proj2 (proj2 (proj2 (visualize_orientations_reordered
                  (NdArray (mk_ndarray [1; 4] [1; 0; 0; 0]%Z)) 1 None None None
                  Demo.group eq_refl)))))
           1%Z 0%Z 0%Z 0%Z eq_refl eq_refl eq_refl eq_refl).
Defined.

(** C6: [visualize(marker_indices=[])] brings the group to count 0, and the
    call with no argument that follows returns normally. *)
Lemma visualize_no_input_zero_count_returns_witness :
  fst (visualize None None None (Some (IndexList [])) Demo.group) = inr tt
  /\ is_visible Demo.emptied = true
  /\ _count Demo.emptied = 0
  /\ visualize None None None None Demo.emptied = (inr tt, Demo.emptied).
Proof.
  split; [reflexivity|]. split; [reflexivity|]. split; [reflexivity|].
  exact (visualize_no_input_zero_count_returns Demo.emptied eq_refl eq_refl).
Defined.

(** C9: translations of shape (2, 3) with orientations of shape (4, 3). *)
Lemma visualize_not_atomic_witness :
  is_visible Demo.group = true
  /\ (exists e,
        fst (visualize (Demo.array [2; 3] [1; 2; 3; 4; 5; 6]%Z) (Demo.array [4; 3] []) None None
               Demo.group) = inl e)
  /\ positions (_instancer_manager
       (snd (visualize (Demo.array [2; 3] [1; 2; 3; 4; 5; 6]%Z) (Demo.array [4; 3] []) None None
               Demo.group))) = Some [[1; 2; 3]; [4; 5; 6]]%Z
  /\ positions (_instancer_manager Demo.group) = Some [[0; 0; 0]]%Z
  /\ _count (snd (visualize (Demo.array [2; 3] [1; 2; 3; 4; 5; 6]%Z) (Demo.array [4; 3] [])
                     None None Demo.group)) = 1.
Proof.
  split; [reflexivity|].
  pose proof (visualize_not_atomic
                (NdArray (mk_ndarray [2; 3] [1; 2; 3; 4; 5; 6]%Z))
                (NdArray (mk_ndarray [4; 3] [])) None None Demo.group
                eq_refl eq_refl eq_refl) as (He & _ & Hpos & _ & _ & _ & Hc).
  split; [exact He|]. split; [exact Hpos|]. split; [reflexivity|exact Hc].
Defined.

(** C10: the empty list on the group. *)
Lemma visualize_empty_indices_witness :
  is_visible Demo.group = true
  /\ fst (visualize None None None (Some (IndexList [])) Demo.group) = inr tt
  /\ protoIndices (_instancer_manager
       (snd (visualize None None None (Some (IndexList [])) Demo.group))) = Some []
  /\ _count (snd (visualize None None None (Some (IndexList [])) Demo.group)) = 0.
Proof.
  split; [reflexivity|].
  pose proof (visualize_empty_indices (IndexList []) Demo.group eq_refl eq_refl)
    as (Hrun & Hp & Hc).
  split; [now rewrite Hrun|]. split; [exact Hp|exact Hc].
Defined.

(** C7, as stated, fails on a non-empty configuration whose only entry is a
    non-file marker of type Xform: construction raises. *)
Lemma init_refuses_nonempty_config :
  markers Demo.empty_container_cfg <> []
  /\ Demo.construct Demo.empty_container_cfg
     = inl (ValueError "Please use `FileMarkerCfg` for `prim_type` of `Xform`.").
Proof. split; [discriminate|reflexivity]. Qed.

(** C7, as amended, on the two spheres: two prototypes, [marker1] at index
    0 and [marker2] at index 1. *)
Lemma init_prototype_indices_witness :
  markers Demo.two_spheres <> []
  /\ exists self,
       Demo.construct Demo.two_spheres = inr self
       /\ num_prototypes self = 2
       /\ nth_error (prototypes (_instancer_manager self)) 0
          = Some (marker_prim_path self "marker1")
       /\ nth_error (prototypes (_instancer_manager self)) 1
          = Some (marker_prim_path self "marker2").
Proof.
  assert (Hne : markers Demo.two_spheres <> []) by discriminate.
  split; [exact Hne|].
  destruct (proj2 (init_prototype_indices 0%Z Demo.file_system Demo.free_path
                     "/World/Visuals/testMarkers" Demo.two_spheres) Hne eq_refl)
    as (self & Hrun & Hnum & _ & Hnth).
  exists self. split; [exact Hrun|]. split; [exact Hnum|].
  split; [exact (Hnth 0 _ _ eq_refl)|exact (Hnth 1 _ _ eq_refl)].
Defined.

(** C8, as stated, fails twice.  A file marker of type Cone whose file is
    missing makes construction raise [FileNotFoundError], not the
    [ValueError] of its prim type; and a file marker whose file is missing
    behind a non-file Xform marker makes it raise the [ValueError] of the
    latter, not [FileNotFoundError]. *)
Lemma init_error_follows_check_order :
  (Demo.file_system "missing.usd" = false
   /\ prim_type Demo.cone_fields <> "Xform"%string
   /\ Demo.construct Demo.missing_file_cfg
      = inl (FileNotFoundError "USD file for the marker not found at: missing.usd")
   /\ forall msg, Demo.construct Demo.missing_file_cfg <> inl (ValueError msg))
  /\ (In ("arrow"%string, FileMarkerCfg Demo.cone_fields "missing.usd")
         (markers Demo.xform_then_missing_cfg)
      /\ Demo.construct Demo.xform_then_missing_cfg
         = inl (ValueError "Please use `FileMarkerCfg` for `prim_type` of `Xform`.")
      /\ forall msg, Demo.construct Demo.xform_then_missing_cfg <> inl (FileNotFoundError msg)).
Proof.
  split.
  - split; [reflexivity|]. split; [discriminate|]. split; [reflexivity|].
    intros msg H. discriminate H.
  - split; [right; left; reflexivity|]. split; [reflexivity|].
    intros msg H. discriminate H.
Qed.

(** C8, as amended, on the missing file. *)
Lemma init_fails_at_first_bad_marker_witness :
  existsb (fun e => negb (marker_ok Demo.file_system (snd e)))
    (markers Demo.missing_file_cfg) = true
  /\ exists m : MarkerCfg Z unit,
       marker_ok Demo.file_system m = false
       /\ Demo.construct Demo.missing_file_cfg = inl (marker_error Demo.file_system m).
Proof.
  split; [reflexivity|].
  destruct (init_fails_at_first_bad_marker 0%Z Demo.file_system Demo.free_path
              "/World/Visuals/testMarkers" Demo.missing_file_cfg eq_refl)
    as (pre & name & m & post & _ & _ & Hbad & Hrun & _).
  exists m. split; assumption.
Defined.

(** * More of the module: outcomes, invariants and composition *)

Section Protocol.
Context {F Any : Type} {host : HostFloats F}.
Variable fzero : F.
Variable check_file_path : string -> bool.
Variable get_next_free_path : string -> string.

Implicit Types (s self : VisualizationMarkers F Any).
Implicit Types (t o sc : option (array_like F)) (mi : option indices_like).

(** ** Every call ends in one of the nine ways *)

Lemma visualize_position_rejects (x : array_like F) n s :
  rank2_width 3 (as_numpy x) = false ->
  exists e, visualize_position (Some x) n s = (inl e, s).
Proof.
  intros Hbad.
  destruct (shape (as_numpy x)) as [|d0 [|d1 rest]] eqn:H.
  - eexists. unfold visualize_position, bind, tuple_getitem.
    cbv zeta. rewrite H. reflexivity.
  - eexists. apply (visualize_position_rank1 x d0 n s H).
  - eexists. apply (visualize_position_shape_error x d0 d1 rest n s H Hbad).
Qed.

Lemma visualize_scales_rejects (x : array_like F) n s :
  rank2_width 3 (as_numpy x) = false ->
  exists e, visualize_scales (Some x) n s = (inl e, s).
Proof.
  intros Hbad.
  destruct (shape (as_numpy x)) as [|d0 [|d1 rest]] eqn:H.
  - eexists. unfold visualize_scales, bind, tuple_getitem.
    cbv zeta. rewrite H. reflexivity.
  - eexists. apply (visualize_scales_rank1 x d0 n s H).
  - eexists. apply (visualize_scales_shape_error x d0 d1 rest n s H Hbad).
Qed.

Lemma provided_bad_is_some k t :
  provided_ok k t = false -> exists x, t = Some x /\ rank2_width k (as_numpy x) = false.
Proof. destruct t as [x|]; [intros H; now exists x|discriminate]. Qed.

Lemma visualize_cases t o sc mi s :
  visualize_case t o sc mi s (visualize t o sc mi s).
Proof.
  destruct (is_visible s) eqn:Hv.
  2: { rewrite (visualize_invisible t o sc mi s Hv). now constructor. }
  destruct (provided_ok 3 t) eqn:Ht.
  2: { destruct (provided_bad_is_some 3 t Ht) as (x & -> & Hx).
       destruct (visualize_position_rejects x 0 s Hx) as [e He].
       rewrite (visualize_visible _ _ _ _ _ Hv), (bind_raise _ _ _ _ _ He).
       now apply case_translations_rejected. }
  destruct (provided_ok 4 o) eqn:Ho.
  2: { destruct (provided_bad_is_some 4 o Ho) as (x & -> & Hx).
       destruct (visualize_orientation_rejects x (dim_or t 0) (write_positions t s) Hx)
         as [e He].
       rewrite (visualize_visible _ _ _ _ _ Hv).
       rewrite (bind_ok _ _ _ _ _ (visualize_position_ok t 0 s Ht)).
       rewrite (bind_raise _ _ _ _ _ He).
       now apply case_orientations_rejected. }
  destruct (provided_ok 3 sc) eqn:Hsc.
  2: { destruct (provided_bad_is_some 3 sc Hsc) as (x & -> & Hx).
       destruct (visualize_scales_rejects x (dim_or o (dim_or t 0))
                   (write_orientations o (write_positions t s)) Hx) as [e He].
       rewrite (visualize_visible _ _ _ _ _ Hv).
       rewrite (bind_ok _ _ _ _ _ (visualize_position_ok t 0 s Ht)).
       rewrite (bind_ok _ _ _ _ _ (visualize_orientation_ok o _ _ Ho)).
       rewrite (bind_raise _ _ _ _ _ He).
       now apply case_scales_rejected. }
  rewrite (visualize_arrays_ok t o sc mi s Hv Ht Ho Hsc).
  pose proof (write_arrays_count t o sc s) as Hc.
  destruct mi as [x|].
  - destruct (rank1 (indices_as_numpy x)) eqn:Hx.
    + rewrite (bind_ok _ _ _ _ _ (visualize_status_indices x _ _ Hx)).
      now apply case_indices_written.
    + rewrite (bind_raise _ _ _ _ _ (visualize_status_bad_rank x _ _ Hx)).
      now apply case_indices_rejected.
  - destruct (Nat.eq_dec (implied_count t o sc) (_count s)) as [Heq|Hne].
    + rewrite Heq at 1. rewrite <- Hc.
      rewrite (bind_ok _ _ _ _ _ (visualize_status_same _)).
      unfold modify. rewrite Hc, <- Heq. now apply case_count_unchanged.
    + destruct (Nat.eq_dec (implied_count t o sc) 0) as [Hz|Hnz].
      * rewrite Hz at 1.
        assert (Hnz : _count (write_arrays t o sc s) <> 0) by (rewrite Hc; congruence).
        rewrite (bind_raise _ _ _ _ _ (visualize_status_zero _ Hnz)).
        now apply case_zero_markers.
      * assert (H1 : implied_count t o sc <> _count (write_arrays t o sc s))
          by (rewrite Hc; exact Hne).
        rewrite (bind_ok _ _ _ _ _ (visualize_status_default _ _ H1 Hnz)).
        now apply case_indices_reset.
Qed.

(** ** What a call never touches *)

Ltac by_arguments t o sc :=
  destruct t as [?|], o as [?|], sc as [?|];
  cbn [write_arrays write_scales write_orientations write_positions
       set_count SetProtoIndices SetPositions SetOrientations SetScales with_instancer
       _instancer_manager _count visibility positions orientations scales protoIndices
       prototypes cfg prim_path stage fst snd].

Lemma visualize_frame_visibility t o sc mi s :
  visibility (_instancer_manager (snd (visualize t o sc mi s)))
  = visibility (_instancer_manager s)
  /\ _count (write_arrays t o sc s) = _count s.
Proof.
  split; [|apply write_arrays_count].
  destruct (visualize_cases t o sc mi s); by_arguments t o sc; reflexivity.
Qed.

(** X1.  Whatever its arguments and however it ends, [visualize] leaves the
    visibility of the instancer, its prototype targets, the configuration,
    the prim path and the prototype prims as they were; and a call that
    raises leaves [_count] and the prototype indices as they were. *)
Theorem visualize_frame t o sc mi s :
  visibility (_instancer_manager (snd (visualize t o sc mi s)))
  = visibility (_instancer_manager s)
  /\ prototypes (_instancer_manager (snd (visualize t o sc mi s)))
     = prototypes (_instancer_manager s)
  /\ cfg (snd (visualize t o sc mi s)) = cfg s
  /\ prim_path (snd (visualize t o sc mi s)) = prim_path s
  /\ stage (snd (visualize t o sc mi s)) = stage s
  /\ (forall e, fst (visualize t o sc mi s) = inl e ->
      _count (snd (visualize t o sc mi s)) = _count s
      /\ protoIndices (_instancer_manager (snd (visualize t o sc mi s)))
         = protoIndices (_instancer_manager s)).
Proof.
  destruct (visualize_cases t o sc mi s); by_arguments t o sc;
    repeat split; intros; try discriminate; reflexivity.
Qed.

(** X2.  An argument left at [None] leaves its attribute unchanged, however
    the call ends: positions for translations, orientations for
    orientations, scales for scales. *)
Theorem visualize_none_leaves_attribute t o sc mi s :
  (t = None ->
   positions (_instancer_manager (snd (visualize t o sc mi s)))
   = positions (_instancer_manager s))
  /\ (o = None ->
      orientations (_instancer_manager (snd (visualize t o sc mi s)))
      = orientations (_instancer_manager s))
  /\ (sc = None ->
      scales (_instancer_manager (snd (visualize t o sc mi s)))
      = scales (_instancer_manager s)).
Proof.
  destruct (visualize_cases t o sc mi s); by_arguments t o sc;
    repeat split; intros; try discriminate; reflexivity.
Qed.

(** ** The count and the prototype indices stay in step *)

Lemma rank1_wf_length (a : ndarray Z) :
  rank1 a = true -> ndarray_wf a -> List.length (data a) = leading_dim a.
Proof.
  intros Hr Hwf. unfold ndarray_wf in Hwf.
  rewrite (rank1_shape a Hr) in Hwf. cbn in Hwf. lia.
Qed.

(** X3.  If the recorded count is the length of the prototype-index array
    before a call, it is so after it, whatever the arguments (an index
    array being a [numpy] array whose buffer has the length of its shape)
    and whether the call returns or raises. *)
Theorem visualize_keeps_count_matches_indices t o sc mi s :
  count_matches_indices s = true ->
  (forall x, mi = Some x -> ndarray_wf (indices_as_numpy x)) ->
  count_matches_indices (snd (visualize t o sc mi s)) = true.
Proof.
  intros Hinv Hwf. unfold count_matches_indices in *.
  destruct (visualize_cases t o sc mi s) as
    [Hv|e Hv Ht|e Hv Ht Ho|e Hv Ht Ho Hsc|x Hv Ht Ho Hsc Hmi Hx|x Hv Ht Ho Hsc Hmi Hx
    |Hv Ht Ho Hsc Hmi Heq|Hv Ht Ho Hsc Hmi Hne Hz|Hv Ht Ho Hsc Hmi Hne Hnz];
    try (by_arguments t o sc; exact Hinv).
  - (* the indices were written *)
    by_arguments t o sc;
      apply Nat.eqb_eq; unfold IntArray_FromNumpy; rewrite length_map;
      apply (rank1_wf_length _ Hx), (Hwf x Hmi).
  - (* the count did not change *)
    rewrite Heq. by_arguments t o sc; exact Hinv.
  - (* the indices were reset to zeros *)
    by_arguments t o sc; apply Nat.eqb_eq, repeat_length.
Qed.

(** ** When a call returns normally *)

(** X4.  On a visible group a call returns normally exactly when every
    provided array passes its shape check and it is not the case that
    [marker_indices] is null, the implied count is 0 and the recorded count
    is not 0; in every other case it raises. *)
Theorem visualize_succeeds_iff t o sc mi s :
  is_visible s = true ->
  (fst (visualize t o sc mi s) = inr tt <-> accepted t o sc mi s = true)
  /\ (accepted t o sc mi s = false -> exists e, fst (visualize t o sc mi s) = inl e).
Proof.
  intros Hvis. unfold accepted.
  destruct (visualize_cases t o sc mi s) as
    [Hv|e Hv Ht|e Hv Ht Ho|e Hv Ht Ho Hsc|x Hv Ht Ho Hsc Hmi Hx|x Hv Ht Ho Hsc Hmi Hx
    |Hv Ht Ho Hsc Hmi Heq|Hv Ht Ho Hsc Hmi Hne Hz|Hv Ht Ho Hsc Hmi Hne Hnz];
    cbn [fst]; try congruence; try subst mi; cbn [indices_ok];
    repeat match goal with H : _ = true |- _ => rewrite H | H : _ = false |- _ => rewrite H end;
    cbn [andb negb].
  - split; [split; intros; discriminate|intros _; now exists e].
  - split; [split; intros; discriminate|intros _; now exists e].
  - split; [split; intros; discriminate|intros _; now exists e].
  - split; [split; intros; reflexivity|intros; discriminate].
  - split; [split; intros; discriminate|intros _; eexists; reflexivity].
  - assert (Hg : (implied_count t o sc =? 0) && negb (_count s =? 0) = false).
    { rewrite Heq. destruct (_count s); reflexivity. }
    rewrite Hg. split; [split; intros; reflexivity|intros; discriminate].
  - assert (Hg : (implied_count t o sc =? 0) && negb (_count s =? 0) = true).
    { rewrite Hz in *. destruct (_count s); [congruence|reflexivity]. }
    rewrite Hg. split; [split; intros; discriminate|intros _; eexists; reflexivity].
  - apply Nat.eqb_neq in Hnz. rewrite Hnz.
    split; [split; intros; reflexivity|intros; discriminate].
Qed.

(** ** Calling twice *)

Lemma is_visible_after t o sc mi s :
  is_visible (snd (visualize t o sc mi s)) = is_visible s.
Proof.
  unfold is_visible. now rewrite (proj1 (visualize_frame_visibility t o sc mi s)).
Qed.

Lemma visualize_again_same_count t o sc s2 :
  is_visible s2 = true ->
  provided_ok 3 t = true -> provided_ok 4 o = true -> provided_ok 3 sc = true ->
  _count s2 = implied_count t o sc ->
  visualize t o sc None s2 = (inr tt, set_count (implied_count t o sc) (write_arrays t o sc s2)).
Proof.
  intros Hv Ht Ho Hsc Hc.
  rewrite (visualize_arrays_ok t o sc None s2 Hv Ht Ho Hsc).
  pose proof (write_arrays_count t o sc s2) as Hw.
  rewrite <- Hc, <- Hw.
  now rewrite (bind_ok _ _ _ _ _ (visualize_status_same _)).
Qed.

(** X5.  A call that returned normally can be repeated with the same
    arguments: the second call returns normally too and leaves the object
    exactly as the first one left it. *)
Theorem visualize_idempotent t o sc mi s :
  fst (visualize t o sc mi s) = inr tt ->
  visualize t o sc mi (snd (visualize t o sc mi s))
  = (inr tt, snd (visualize t o sc mi s)).
Proof.
  pose proof (is_visible_after t o sc mi s) as Hvis.
  destruct (visualize_cases t o sc mi s) as
    [Hv|e Hv Ht|e Hv Ht Ho|e Hv Ht Ho Hsc|x Hv Ht Ho Hsc Hmi Hx|x Hv Ht Ho Hsc Hmi Hx
    |Hv Ht Ho Hsc Hmi Heq|Hv Ht Ho Hsc Hmi Hne Hz|Hv Ht Ho Hsc Hmi Hne Hnz];
    cbn [fst snd] in *; intros Hok; try discriminate.
  - apply (visualize_invisible _ _ _ _ _ Hv).
  - subst mi. rewrite Hv in Hvis.
    rewrite (visualize_arrays_ok t o sc (Some x) _ Hvis Ht Ho Hsc).
    rewrite (bind_ok _ _ _ _ _ (visualize_status_indices x _ _ Hx)).
    unfold modify. f_equal. by_arguments t o sc; reflexivity.
  - subst mi. rewrite Hv in Hvis.
    rewrite (visualize_again_same_count t o sc _ Hvis Ht Ho Hsc eq_refl).
    f_equal. by_arguments t o sc; reflexivity.
  - subst mi. rewrite Hv in Hvis.
    rewrite (visualize_again_same_count t o sc _ Hvis Ht Ho Hsc eq_refl).
    f_equal. by_arguments t o sc; reflexivity.
Qed.

(** ** What the array blocks write *)

Lemma rows_concat {A} m k (buf : list A) :
  List.length buf = m * k -> concat (rows m k buf) = buf.
Proof.
  revert buf. induction m as [|m IH]; intros buf H; cbn [rows concat].
  - destruct buf; [reflexivity|discriminate].
  - rewrite IH; [apply firstn_skipn|]. rewrite length_skipn. cbn in H. lia.
Qed.

Lemma rows_length {A} m k (buf : list A) : List.length (rows m k buf) = m.
Proof. revert buf. induction m as [|m IH]; intros buf; cbn; [|rewrite IH]; reflexivity. Qed.

(** X6.  On a visible group an accepted translations array of shape
    (M, 3) is on the instancer after the call as [Vt.Vec3fArray.FromNumpy]
    reads it, whatever the other arguments are and whether or not the call
    raises later; accepted scales likewise once translations and
    orientations were accepted.  For a buffer of the announced M * 3 values
    what is written is M rows of three components whose concatenation is
    the buffer narrowed to single precision element by element, in its
    order; it is the buffer itself when narrowing leaves its values as
    they are. *)
Theorem visualize_rows_written (x : array_like F) (m : nat) t o sc mi s :
  is_visible s = true ->
  shape (as_numpy x) = [m; 3] ->
  positions (_instancer_manager (snd (visualize (Some x) o sc mi s)))
  = Some (Vec3fArray_FromNumpy (as_numpy x))
  /\ (provided_ok 3 t = true -> provided_ok 4 o = true ->
      scales (_instancer_manager (snd (visualize t o (Some x) mi s)))
      = Some (Vec3fArray_FromNumpy (as_numpy x)))
  /\ (ndarray_wf (as_numpy x) ->
      List.length (Vec3fArray_FromNumpy (as_numpy x)) = m
      /\ Forall (fun row => List.length row = 3) (Vec3fArray_FromNumpy (as_numpy x))
      /\ concat (Vec3fArray_FromNumpy (as_numpy x)) = map to_float32 (data (as_numpy x)))
  /\ (ndarray_wf (as_numpy x) ->
      Forall (fun v => to_float32 v = v) (data (as_numpy x)) ->
      concat (Vec3fArray_FromNumpy (as_numpy x)) = data (as_numpy x)).
Proof.
  intros Hvis Hx.
  assert (Hok : provided_ok 3 (Some x) = true).
  { unfold provided_ok, rank2_width. now rewrite Hx. }
  assert (Hrows : Vec3fArray_FromNumpy (as_numpy x)
                  = rows m 3 (map to_float32 (data (as_numpy x)))).
  { unfold Vec3fArray_FromNumpy. now rewrite Hx. }
  assert (Hlen : ndarray_wf (as_numpy x) ->
                 List.length (map to_float32 (data (as_numpy x))) = m * 3).
  { intros Hwf. unfold ndarray_wf in Hwf. rewrite Hx in Hwf. cbn in Hwf.
    rewrite length_map. lia. }
  split; [|split; [|split]].
  - destruct (visualize_cases (Some x) o sc mi s); try congruence;
      destruct o as [?|], sc as [?|]; reflexivity.
  - intros Ht Ho.
    destruct (visualize_cases t o (Some x) mi s); try congruence;
      destruct t as [?|], o as [?|]; reflexivity.
  - intros Hwf. rewrite Hrows. pose proof (Hlen Hwf) as Hl.
    split; [apply rows_length|]. split; [apply rows_width, Hl|apply rows_concat, Hl].
  - intros Hwf Hfixed. rewrite Hrows, (rows_concat _ _ _ (Hlen Hwf)).
    clear - Hfixed. induction Hfixed as [|v l Hv _ IH]; [reflexivity|].
    cbn [map]. now rewrite Hv, IH.
Qed.

(** ** Shape errors *)

(** X7.  On a visible group an array of rank 2 or more that fails its
    shape check makes the call raise the [ValueError] whose message names
    the argument, the expected shape and the received shape; what the
    earlier blocks wrote stays written and nothing else changes. *)
Theorem visualize_shape_errors (x : array_like F) d0 d1 rest t o sc mi s :
  is_visible s = true ->
  shape (as_numpy x) = d0 :: d1 :: rest ->
  (rank2_width 3 (as_numpy x) = false ->
   visualize (Some x) o sc mi s
   = (inl (ValueError (shape_msg "translations" "(M, 3)" (shape (as_numpy x)))), s))
  /\ (rank2_width 4 (as_numpy x) = false -> provided_ok 3 t = true ->
      visualize t (Some x) sc mi s
      = (inl (ValueError (shape_msg "orientations" "(M, 4)" (shape (as_numpy x)))),
         write_positions t s))
  /\ (rank2_width 3 (as_numpy x) = false -> provided_ok 3 t = true -> provided_ok 4 o = true ->
      visualize t o (Some x) mi s
      = (inl (ValueError (shape_msg "scales" "(M, 3)" (shape (as_numpy x)))),
         write_orientations o (write_positions t s))).
Proof.
  intros Hv Hx. split; [|split].
  - intros Hbad. rewrite (visualize_visible _ _ _ _ _ Hv).
    apply bind_raise. apply (visualize_position_shape_error x d0 d1 rest 0 s Hx Hbad).
  - intros Hbad Ht. rewrite (visualize_visible _ _ _ _ _ Hv).
    rewrite (bind_ok _ _ _ _ _ (visualize_position_ok t 0 s Ht)).
    apply bind_raise. apply (visualize_orientation_shape_error x d0 d1 rest _ _ Hx Hbad).
  - intros Hbad Ht Ho. rewrite (visualize_visible _ _ _ _ _ Hv).
    rewrite (bind_ok _ _ _ _ _ (visualize_position_ok t 0 s Ht)).
    rewrite (bind_ok _ _ _ _ _ (visualize_orientation_ok o _ _ Ho)).
    apply bind_raise. apply (visualize_scales_shape_error x d0 d1 rest _ _ Hx Hbad).
Qed.

(** ** Visibility *)

Lemma SetVisibility_current s :
  SetVisibility (visibility (_instancer_manager s)) s = s.
Proof. destruct s as [p c [v ps os ss pi pr] st n]. reflexivity. Qed.

(** X8.  [set_visibility] never raises and [is_visible] reads back the
    flag it was given; of two calls the last one wins, a call with the
    current visibility changes nothing, and no call touches the count, the
    four instance arrays or the prototype targets. *)
Theorem set_visibility_read_back (b : bool) s :
  fst (set_visibility b s) = inr tt
  /\ is_visible (snd (set_visibility b s)) = b
  /\ (forall b', snd (set_visibility b' (snd (set_visibility b s))) = snd (set_visibility b' s))
  /\ snd (set_visibility (is_visible s) s) = s
  /\ _count (snd (set_visibility b s)) = _count s
  /\ positions (_instancer_manager (snd (set_visibility b s))) = positions (_instancer_manager s)
  /\ orientations (_instancer_manager (snd (set_visibility b s)))
     = orientations (_instancer_manager s)
  /\ scales (_instancer_manager (snd (set_visibility b s))) = scales (_instancer_manager s)
  /\ protoIndices (_instancer_manager (snd (set_visibility b s)))
     = protoIndices (_instancer_manager s)
  /\ prototypes (_instancer_manager (snd (set_visibility b s)))
     = prototypes (_instancer_manager s).
Proof.
  split; [now destruct b|]. split; [now destruct b|].
  split; [intros b'; now destruct b, b'|].
  split.
  - unfold is_visible. pose proof (SetVisibility_current s) as H.
    destruct (visibility (_instancer_manager s)); exact H.
  - destruct b; repeat split.
Qed.

(** X9.  Updates sent while the group is hidden are dropped, not kept for
    later: hiding a visible group, calling [visualize] with any arguments
    and showing the group again leaves the object exactly as it was, and
    none of the three calls raises. *)
Theorem visualize_while_hidden_is_dropped t o sc mi s :
  is_visible s = true ->
  (set_visibility false ;; visualize t o sc mi ;; set_visibility true) s = (inr tt, s).
Proof.
  intros Hv.
  assert (Hhid : is_visible (SetVisibility invisible s) = false) by reflexivity.
  unfold bind, set_visibility, modify.
  rewrite (visualize_invisible t o sc mi _ Hhid).
  f_equal. pose proof (SetVisibility_current s) as H.
  unfold is_visible in Hv.
  destruct (visibility (_instancer_manager s)) eqn:Hvs; [|discriminate].
  rewrite <- H at 2. destruct s as [p c [v ps os ss pi pr] st n]. reflexivity.
Qed.

(** ** The loop of [_add_markers_prototypes], turn by turn *)

Lemma add_markers_prototypes_turn name (m : MarkerCfg F Any) rest s :
  marker_ok check_file_path m = true ->
  _add_markers_prototypes check_file_path ((name, m) :: rest) s
  = _add_markers_prototypes check_file_path rest (prototype_turn name m s).
Proof.
  intros Hok. unfold _add_markers_prototypes. cbn [for_each].
  destruct m as [f|f usd]; cbn [marker_ok] in Hok.
  - apply negb_true_iff in Hok.
    unfold bind at 1. unfold bind at 1. rewrite Hok.
    unfold prototype_turn, bind, get, modify, ret. cbn [fields_of usd_path_of].
    destruct (color f); reflexivity.
  - apply andb_true_iff in Hok. destruct Hok as [Hfile Htype].
    unfold bind at 1. unfold bind at 1. rewrite Hfile, Htype. cbn [negb].
    unfold prototype_turn, bind, get, modify, ret. cbn [fields_of usd_path_of].
    destruct (color f); reflexivity.
Qed.

Lemma add_markers_prototypes_app pre post s :
  forallb (fun e : string * MarkerCfg F Any => marker_ok check_file_path (snd e)) pre = true ->
  fst (_add_markers_prototypes check_file_path pre s) = inr tt
  /\ _add_markers_prototypes check_file_path (pre ++ post) s
     = _add_markers_prototypes check_file_path post
         (snd (_add_markers_prototypes check_file_path pre s)).
Proof.
  revert s. induction pre as [|[name m] pre IH]; intros s Hpre.
  - split; reflexivity.
  - cbn [forallb snd] in Hpre. apply andb_true_iff in Hpre. destruct Hpre as [Hm Hrest].
    cbn [app]. rewrite !(add_markers_prototypes_turn name m _ s Hm).
    apply IH, Hrest.
Qed.

(** X10.  The loop stops at the first entry that does not pass: the
    exception is the one of that entry, and the object is left exactly as
    the loop over the entries before it leaves it.  Those entries stay
    registered as prototype targets; nothing is created for the offending
    entry or for any entry after it. *)
Theorem add_markers_prototypes_stops_at_first_bad pre name (m : MarkerCfg F Any) post s :
  forallb (fun e => marker_ok check_file_path (snd e)) pre = true ->
  marker_ok check_file_path m = false ->
  fst (_add_markers_prototypes check_file_path pre s) = inr tt
  /\ _add_markers_prototypes check_file_path (pre ++ (name, m) :: post) s
     = (inl (marker_error check_file_path m),
        snd (_add_markers_prototypes check_file_path pre s))
  /\ prototypes (_instancer_manager
       (snd (_add_markers_prototypes check_file_path (pre ++ (name, m) :: post) s)))
     = prototypes (_instancer_manager s) ++ map (fun e => marker_prim_path s (fst e)) pre
  /\ List.length (stage
       (snd (_add_markers_prototypes check_file_path (pre ++ (name, m) :: post) s)))
     = List.length (stage s) + List.length pre.
Proof.
  intros Hpre Hbad.
  destruct (add_markers_prototypes_app pre ((name, m) :: post) s Hpre) as [Hrun Happ].
  rewrite Happ, (add_markers_prototypes_cons_bad check_file_path name m post _ Hbad). cbn [snd].
  split; [exact Hrun|]. split; [reflexivity|].
  clear Happ Hrun. revert s. induction pre as [|[name0 m0] pre IH]; intros s.
  - cbn. rewrite app_nil_r. split; [reflexivity|lia].
  - cbn [forallb snd] in Hpre. apply andb_true_iff in Hpre. destruct Hpre as [Hm Hrest].
    rewrite (add_markers_prototypes_turn name0 m0 _ s Hm).
    destruct (IH Hrest (prototype_turn name0 m0 s)) as [Hp Hs].
    rewrite Hp, Hs. split.
    + unfold prototype_turn, marker_prim_path.
      cbn [AddTarget with_stage with_instancer _instancer_manager prototypes prim_path
           map fst].
      now rewrite <- app_assoc.
    + unfold prototype_turn.
      cbn [AddTarget with_stage with_instancer stage List.length].
      unfold on_prim. destruct (color (fields_of m0));
        rewrite ?length_map, length_app; cbn [List.length]; lia.
Qed.

(** ** What construction leaves behind *)

Lemma add_markers_prototypes_frame (ms : list (string * MarkerCfg F Any)) s :
  forallb (fun e => marker_ok check_file_path (snd e)) ms = true ->
  visibility (_instancer_manager (snd (_add_markers_prototypes check_file_path ms s)))
  = visibility (_instancer_manager s)
  /\ positions (_instancer_manager (snd (_add_markers_prototypes check_file_path ms s)))
     = positions (_instancer_manager s)
  /\ orientations (_instancer_manager (snd (_add_markers_prototypes check_file_path ms s)))
     = orientations (_instancer_manager s)
  /\ scales (_instancer_manager (snd (_add_markers_prototypes check_file_path ms s)))
     = scales (_instancer_manager s).
Proof.
  revert s. induction ms as [|[name m] rest IH]; intros s Hall.
  - repeat split.
  - cbn [forallb snd] in Hall. apply andb_true_iff in Hall. destruct Hall as [Hm Hrest].
    rewrite (add_markers_prototypes_turn name m rest s Hm).
    destruct (IH (prototype_turn name m s) Hrest) as (H1 & H2 & H3 & H4).
    rewrite H1, H2, H3, H4. repeat split.
Qed.

Lemma forallb_false_existsb {A} (f : A -> bool) (l : list A) :
  forallb f l = false -> existsb (fun x => negb (f x)) l = true.
Proof.
  induction l as [|x l IH]; [discriminate|]. cbn.
  destruct (f x); cbn; [exact IH|reflexivity].
Qed.

(** A construction that returns went past the emptiness test and through
    the whole loop. *)
Lemma init_returns requested (c : VisualizationMarkersCfg F Any) self :
  __init__ fzero check_file_path get_next_free_path requested c = inr self ->
  markers c <> []
  /\ forallb (fun e => marker_ok check_file_path (snd e)) (markers c) = true
  /\ exists s',
       _add_markers_prototypes check_file_path (markers c)
         {| prim_path := get_next_free_path requested; cfg := c;
            _instancer_manager := define_PointInstancer; stage := []; _count := 0 |}
       = (inr tt, s')
       /\ self = set_count 1 (SetPositions [[fzero; fzero; fzero]] (SetProtoIndices [0%Z] s')).
Proof.
  intros Hrun.
  assert (Hne : markers c <> []).
  { intros Hempty. unfold __init__ in Hrun. cbv zeta in Hrun.
    rewrite Hempty in Hrun. discriminate Hrun. }
  split; [exact Hne|].
  rewrite (init_nonempty fzero check_file_path get_next_free_path requested c Hne) in Hrun.
  set (s0 := {| prim_path := get_next_free_path requested; cfg := c;
                _instancer_manager := define_PointInstancer; stage := []; _count := 0 |}) in *.
  destruct (forallb (fun e => marker_ok check_file_path (snd e)) (markers c)) eqn:Hall.
  - split; [reflexivity|].
    destruct (add_markers_prototypes_all_ok check_file_path (markers c) s0 Hall)
      as (s' & Hloop & _).
    rewrite Hloop in Hrun. exists s'. split; [exact Hloop|]. now injection Hrun.
  - apply forallb_false_existsb in Hall.
    destruct (first_bad_marker check_file_path (markers c) Hall)
      as (pre & name & m & post & Hm & Hpre & Hbad).
    rewrite Hm in Hrun.
    destruct (add_markers_prototypes_first_bad check_file_path pre name m post s0 Hpre Hbad)
      as (s' & Hloop).
    rewrite Hloop in Hrun. discriminate Hrun.
Qed.

(** X11.  A construction that returns was given a non-empty configuration
    whose every entry passes the checks, and yields a visible group that
    stores the configuration and the free path the host chose, with
    exactly one instance: count 1, prototype indices [[0]], one position
    at the origin, no orientations and no scales written; the count is the
    length of the prototype-index array. *)
Theorem init_seeds_one_instance requested (c : VisualizationMarkersCfg F Any) self :
  __init__ fzero check_file_path get_next_free_path requested c = inr self ->
  markers c <> []
  /\ forallb (fun e => marker_ok check_file_path (snd e)) (markers c) = true
  /\ prim_path self = get_next_free_path requested
  /\ cfg self = c
  /\ is_visible self = true
  /\ _count self = 1
  /\ protoIndices (_instancer_manager self) = Some [0%Z]
  /\ positions (_instancer_manager self) = Some [[fzero; fzero; fzero]]
  /\ orientations (_instancer_manager self) = None
  /\ scales (_instancer_manager self) = None
  /\ count_matches_indices self = true.
Proof.
  intros Hrun.
  destruct (init_returns requested c self Hrun) as (Hne & Hall & s' & Hloop & ->).
  set (s0 := {| prim_path := get_next_free_path requested; cfg := c;
                _instancer_manager := define_PointInstancer; stage := []; _count := 0 |}) in *.
  destruct (add_markers_prototypes_all_ok check_file_path (markers c) s0 Hall)
    as (s'' & Hloop' & Hp & Hc & _).
  rewrite Hloop in Hloop'. injection Hloop' as <-.
  destruct (add_markers_prototypes_frame (markers c) s0 Hall) as (Hv & _ & Ho & Hs).
  rewrite Hloop in Hv, Ho, Hs. cbn [snd] in Hv, Ho, Hs.
  split; [exact Hne|]. split; [exact Hall|].
  unfold is_visible, count_matches_indices.
  cbn [set_count SetPositions SetProtoIndices with_instancer _instancer_manager
       visibility positions orientations scales protoIndices prim_path cfg _count].
  rewrite Hv, Ho, Hs, Hp, Hc. repeat split.
Qed.

(** ** The prototype prims *)

Lemma append_inj_l (p a b : string) : (p ++ a)%string = (p ++ b)%string -> a = b.
Proof.
  induction p as [|ch p IH]; cbn; [trivial|].
  intros H. injection H as H. exact (IH H).
Qed.

Lemma on_prim_fresh p (f : Prim F Any -> Prim F Any) st :
  (forall q, In q st -> path q <> p) -> on_prim p f st = st.
Proof.
  induction st as [|q st IH]; intros Hfresh; [reflexivity|].
  cbn. rewrite (proj2 (String.eqb_neq _ _) (Hfresh q (or_introl eq_refl))).
  f_equal. apply IH. intros q' Hq'. apply Hfresh. now right.
Qed.

Lemma on_prim_snoc p (f : Prim F Any -> Prim F Any) st x :
  (forall q, In q st -> path q <> p) -> path x = p ->
  on_prim p f (st ++ [x]) = st ++ [f x].
Proof.
  intros Hfresh Hx. unfold on_prim. rewrite map_app.
  fold (on_prim p f st). rewrite (on_prim_fresh p f st Hfresh).
  cbn. now rewrite Hx, String.eqb_refl.
Qed.

Lemma prototype_turn_stage name (m : MarkerCfg F Any) s :
  (forall q, In q (stage s) -> path q <> marker_prim_path s name) ->
  stage (prototype_turn name m s) = stage s ++ [prototype_prim (prim_path s) name m].
Proof.
  intros Hfresh. unfold prototype_turn, marker_prim_path in *.
  cbn [AddTarget with_stage with_instancer stage]. cbv zeta.
  unfold prototype_prim.
  destruct (color (fields_of m)) as [rgb|];
    repeat (rewrite on_prim_snoc; [|exact Hfresh|reflexivity]); reflexivity.
Qed.

Lemma add_markers_prototypes_stage (ms : list (string * MarkerCfg F Any)) s :
  forallb (fun e => marker_ok check_file_path (snd e)) ms = true ->
  NoDup (map fst ms) ->
  (forall q name, In q (stage s) -> In name (map fst ms) -> path q <> marker_prim_path s name) ->
  stage (snd (_add_markers_prototypes check_file_path ms s))
  = stage s ++ map (fun e => prototype_prim (prim_path s) (fst e) (snd e)) ms.
Proof.
  revert s. induction ms as [|[name m] rest IH]; intros s Hall Hnd Hfresh.
  - cbn. now rewrite app_nil_r.
  - cbn [forallb snd] in Hall. apply andb_true_iff in Hall. destruct Hall as [Hm Hrest].
    cbn [map fst] in Hnd. inversion Hnd as [|? ? Hnotin Hnd']; subst.
    rewrite (add_markers_prototypes_turn name m rest s Hm).
    assert (Hstage : stage (prototype_turn name m s)
                     = stage s ++ [prototype_prim (prim_path s) name m]).
    { apply prototype_turn_stage. intros q Hq. apply (Hfresh q name Hq). now left. }
    rewrite IH; [|exact Hrest|exact Hnd'|].
    + rewrite Hstage, <- app_assoc. reflexivity.
    + intros q name' Hq Hin. rewrite Hstage in Hq.
      change (marker_prim_path (prototype_turn name m s) name')
        with (marker_prim_path s name').
      apply in_app_or in Hq. destruct Hq as [Hq|[<-|[]]].
      * apply (Hfresh q name' Hq). now right.
      * unfold prototype_prim, marker_prim_path. cbn [path]. intros Heq.
        apply append_inj_l, append_inj_l in Heq. subst name'. contradiction.
Qed.

(** X12.  After a construction that returns, the names of the
    configuration being distinct as the keys of a dictionary are, the
    stage holds one prim per entry, in the order of the entries: at the
    path of the entry ([prim_path/name], which is also the i-th prototype
    target), of the entry's prim type, referencing the USD file of a file
    marker and nothing for the others, with the entry's scale and
    attributes, hidden from secondary rays, with the entry's visibility
    and colour.  No call made for one entry alters the prim of another. *)
Theorem init_prototype_prims requested (c : VisualizationMarkersCfg F Any) self :
  __init__ fzero check_file_path get_next_free_path requested c = inr self ->
  NoDup (map fst (markers c)) ->
  List.length (stage self) = List.length (markers c)
  /\ forall i name m,
       nth_error (markers c) i = Some (name, m) ->
       exists p,
         nth_error (stage self) i = Some p
         /\ path p = marker_prim_path self name
         /\ nth_error (prototypes (_instancer_manager self)) i = Some (path p)
         /\ type_name p = prim_type (fields_of m)
         /\ reference p = usd_path_of m
         /\ xform_scale p = scale (fields_of m)
         /\ prim_attributes p = attributes (fields_of m)
         /\ prim_visible p = visible (fields_of m)
         /\ invisibleToSecondaryRays p = true
         /\ visual_material p = color (fields_of m).
Proof.
  intros Hrun Hnd.
  destruct (init_returns requested c self Hrun) as (Hne & Hall & s' & Hloop & ->).
  set (s0 := {| prim_path := get_next_free_path requested; cfg := c;
                _instancer_manager := define_PointInstancer; stage := []; _count := 0 |}) in *.
  destruct (add_markers_prototypes_all_ok check_file_path (markers c) s0 Hall)
    as (s'' & Hloop' & Hp & _ & Ht).
  rewrite Hloop in Hloop'. injection Hloop' as <-.
  pose proof (add_markers_prototypes_stage (markers c) s0 Hall Hnd) as Hst.
  rewrite Hloop in Hst. subst s0. cbn [snd stage prim_path app] in Hst.
  specialize (Hst (fun q name Hq => False_ind _ Hq)).
  cbn [prim_path _instancer_manager prototypes define_PointInstancer app] in Hp, Ht.
  unfold marker_prim_path in *.
  cbn [set_count SetPositions SetProtoIndices with_instancer _instancer_manager
       prototypes prim_path stage].
  cbn [prim_path] in Ht.
  rewrite Hst, Ht, Hp. split; [apply length_map|].
  intros i name m Hi. eexists. rewrite !nth_error_map, Hi. cbn [option_map fst snd].
  split; [reflexivity|]. repeat split.
Qed.

End Protocol.

(** * These properties on the concrete marker group *)

(** X3 on three translations: the indices are reset to three zeros and the
    count becomes 3. *)
Lemma visualize_keeps_count_matches_indices_witness :
  count_matches_indices Demo.group = true
  /\ count_matches_indices
       (snd (visualize (Demo.array [3; 3] [1; 2; 3; 4; 5; 6; 7; 8; 9]%Z) None None None
               Demo.group)) = true.
Proof.
  split; [reflexivity|].
  apply (visualize_keeps_count_matches_indices
           (Demo.array [3; 3] [1; 2; 3; 4; 5; 6; 7; 8; 9]%Z) None None None Demo.group eq_refl).
  intros x H. discriminate H.
Defined.

(** X4: three translations are accepted, an empty translations array on a
    group of count 1 is not. *)
Lemma visualize_succeeds_iff_witness :
  is_visible Demo.group = true
  /\ accepted (Demo.array [3; 3] [1; 2; 3; 4; 5; 6; 7; 8; 9]%Z) None None None Demo.group = true
  /\ fst (visualize (Demo.array [3; 3] [1; 2; 3; 4; 5; 6; 7; 8; 9]%Z) None None None Demo.group)
     = inr tt
  /\ accepted (Demo.array [0; 3] []) None None None Demo.group = false
  /\ exists e, fst (visualize (Demo.array [0; 3] []) None None None Demo.group) = inl e.
Proof.
  split; [reflexivity|]. split; [reflexivity|]. split.
  - apply (proj1 (visualize_succeeds_iff
                    (Demo.array [3; 3] [1; 2; 3; 4; 5; 6; 7; 8; 9]%Z) None None None
                    Demo.group eq_refl)).
    reflexivity.
  - split; [reflexivity|].
    apply (proj2 (visualize_succeeds_iff (Demo.array [0; 3] []) None None None
                    Demo.group eq_refl)).
    reflexivity.
Defined.

(** X5 on [marker_indices=[0, 1, 0, 1]]. *)
Lemma visualize_idempotent_witness :
  fst (visualize None None None (Some (IndexList [0; 1; 0; 1]%Z)) Demo.group) = inr tt
  /\ visualize None None None (Some (IndexList [0; 1; 0; 1]%Z))
       (snd (visualize None None None (Some (IndexList [0; 1; 0; 1]%Z)) Demo.group))
     = (inr tt, snd (visualize None None None (Some (IndexList [0; 1; 0; 1]%Z)) Demo.group)).
Proof.
  split; [reflexivity|].
  exact (visualize_idempotent None None None (Some (IndexList [0; 1; 0; 1]%Z)) Demo.group
           eq_refl).
Defined.

(** X6 on two translations, and on a translation whose first component
    2^24 + 1 has no single-precision float. *)
Lemma visualize_rows_written_witness :
  is_visible Demo.group = true
  /\ positions (_instancer_manager
       (snd (visualize (Demo.array [1; 3] [16777217; 0; 0]%Z) None None None Demo.group)))
     = Some [[16777216; 0; 0]]%Z
  /\ positions (_instancer_manager
       (snd (visualize (Demo.array [2; 3] [1; 2; 3; 4; 5; 6]%Z) None None None Demo.group)))
     = Some [[1; 2; 3]; [4; 5; 6]]%Z
  /\ concat (Vec3fArray_FromNumpy (mk_ndarray [2; 3] [1; 2; 3; 4; 5; 6]%Z))
     = [1; 2; 3; 4; 5; 6]%Z.
Proof.
  split; [reflexivity|]. split; [reflexivity|].
  pose proof (visualize_rows_written
                (NdArray (mk_ndarray [2; 3] [1; 2; 3; 4; 5; 6]%Z)) 2 None None None None
                Demo.group eq_refl eq_refl) as (Hpos & _ & Hwf & _).
  split; [exact Hpos|]. exact (proj2 (proj2 (Hwf eq_refl))).
Defined.

(** X7 on orientations of shape (4, 3). *)
Lemma visualize_shape_errors_witness :
  is_visible Demo.group = true
  /\ visualize None (Demo.array [4; 3] []) None None Demo.group
     = (inl (ValueError "Expected `orientations` to have shape (M, 4). Received: (4, 3)."),
        Demo.group).
Proof.
  split; [reflexivity|].
  exact (proj1 (proj2 (visualize_shape_errors
                         (NdArray (mk_ndarray [4; 3] [])) 4 3 [] None None None None
                         Demo.group eq_refl eq_refl))
           eq_refl eq_refl).
Defined.

(** X9 on the group, with three translations sent while it is hidden. *)
Lemma visualize_while_hidden_is_dropped_witness :
  is_visible Demo.group = true
  /\ (set_visibility false ;;
      visualize (Demo.array [3; 3] [1; 2; 3; 4; 5; 6; 7; 8; 9]%Z) None None None ;;
      set_visibility true) Demo.group
     = (inr tt, Demo.group).
Proof.
  split; [reflexivity|].
  exact (visualize_while_hidden_is_dropped
           (Demo.array [3; 3] [1; 2; 3; 4; 5; 6; 7; 8; 9]%Z) None None None Demo.group
           eq_refl).
Defined.

(** X10: the loop run on the group over a sphere, an Xform marker and a
    sphere registers the first sphere only. *)
Lemma add_markers_prototypes_stops_at_first_bad_witness :
  fst (_add_markers_prototypes Demo.file_system Demo.sphere_xform_sphere Demo.group)
  = inl (ValueError "Please use `FileMarkerCfg` for `prim_type` of `Xform`.")
  /\ prototypes (_instancer_manager
       (snd (_add_markers_prototypes Demo.file_system Demo.sphere_xform_sphere Demo.group)))
     = ["/World/Visuals/testMarkers/marker1"%string;
        "/World/Visuals/testMarkers/marker2"%string;
        "/World/Visuals/testMarkers/marker3"%string]
  /\ List.length (stage
       (snd (_add_markers_prototypes Demo.file_system Demo.sphere_xform_sphere Demo.group)))
     = 3.
Proof.
  pose proof (add_markers_prototypes_stops_at_first_bad Demo.file_system
                [("marker3"%string, PrimMarkerCfg (Demo.sphere [0; 0; 1]%Z))]
                "frame" (PrimMarkerCfg Demo.xform_fields)
                [("marker4"%string, PrimMarkerCfg (Demo.sphere [1; 1; 0]%Z))]
                Demo.group eq_refl eq_refl) as (_ & Hrun & Hp & Hs).
  split; [|split].
  - change Demo.sphere_xform_sphere
      with ([("marker3"%string, PrimMarkerCfg (Demo.sphere [0; 0; 1]%Z))]
            ++ ("frame"%string, PrimMarkerCfg Demo.xform_fields)
               :: [("marker4"%string, PrimMarkerCfg (Demo.sphere [1; 1; 0]%Z))]).
    now rewrite Hrun.
  - exact Hp.
  - exact Hs.
Defined.

(** X11 and X12 on the two spheres. *)
Lemma init_seeds_one_instance_witness :
  Demo.construct Demo.two_spheres = inr Demo.group
  /\ _count Demo.group = 1
  /\ protoIndices (_instancer_manager Demo.group) = Some [0%Z]
  /\ positions (_instancer_manager Demo.group) = Some [[0; 0; 0]%Z]
  /\ count_matches_indices Demo.group = true.
Proof.
  split; [reflexivity|].
  pose proof (init_seeds_one_instance 0%Z Demo.file_system Demo.free_path
                "/World/Visuals/testMarkers" Demo.two_spheres Demo.group eq_refl)
    as (_ & _ & _ & _ & _ & Hc & Hpi & Hpos & _ & _ & Hm).
  split; [exact Hc|]. split; [exact Hpi|]. split; [exact Hpos|exact Hm].
Defined.

Lemma init_prototype_prims_witness :
  Demo.construct Demo.two_spheres = inr Demo.group
  /\ NoDup (map fst (markers Demo.two_spheres))
  /\ List.length (stage Demo.group) = 2
  /\ exists p,
       nth_error (stage Demo.group) 1 = Some p
       /\ path p = "/World/Visuals/testMarkers/marker2"%string
       /\ invisibleToSecondaryRays p = true
       /\ visual_material p = Some [0; 1; 0]%Z.
Proof.
  split; [reflexivity|].
  assert (Hnd : NoDup (map fst (markers Demo.two_spheres))).
  { repeat constructor; cbn; intuition discriminate. }
  split; [exact Hnd|].
  destruct (init_prototype_prims 0%Z Demo.file_system Demo.free_path
              "/World/Visuals/testMarkers" Demo.two_spheres Demo.group eq_refl Hnd)
    as (Hlen & Hprims).
  split; [exact Hlen|].
  destruct (Hprims 1 _ _ eq_refl) as (p & Hp & Hpath & _ & _ & _ & _ & _ & _ & Hrays & Hmat).
  exists p. repeat split; assumption.
Defined.

(** * Two calls in a row *)

Section Sequences.
Context {F Any : Type} {host : HostFloats F}.
Implicit Types (s : VisualizationMarkers F Any).

(** X13.  A prototype selection survives a later call without
    [marker_indices] only if the count does not change.  After
    [visualize(marker_indices=x)] on a visible group, which writes the
    indices of [x] narrowed to 32 bits, a call with accepted translations
    of M' > 0 rows alone returns normally with count M'; the prototype
    indices are still what the first call wrote when M' is the length of
    [x], and are M' zeros otherwise. *)
Theorem visualize_selection_then_translations (x : indices_like) (y : array_like F) s :
  is_visible s = true ->
  rank1 (indices_as_numpy x) = true ->
  rank2_width 3 (as_numpy y) = true ->
  leading_dim (as_numpy y) <> 0 ->
  let s1 := snd (visualize None None None (Some x) s) in
  let s2 := snd (visualize (Some y) None None None s1) in
  fst (visualize None None None (Some x) s) = inr tt
  /\ protoIndices (_instancer_manager s1) = Some (IntArray_FromNumpy (indices_as_numpy x))
  /\ fst (visualize (Some y) None None None s1) = inr tt
  /\ _count s2 = leading_dim (as_numpy y)
  /\ (leading_dim (as_numpy y) = leading_dim (indices_as_numpy x) ->
      protoIndices (_instancer_manager s2) = protoIndices (_instancer_manager s1))
  /\ (leading_dim (as_numpy y) <> leading_dim (indices_as_numpy x) ->
      protoIndices (_instancer_manager s2) = Some (repeat 0%Z (leading_dim (as_numpy y)))).
Proof.
  intros Hv Hx Hy Hnz. cbv zeta.
  rewrite (visualize_arrays_ok None None None (Some x) s Hv eq_refl eq_refl eq_refl).
  rewrite (bind_ok _ _ _ _ _ (visualize_status_indices x _ _ Hx)).
  cbn [modify fst snd write_arrays write_scales write_orientations write_positions].
  set (s1 := set_count (leading_dim (indices_as_numpy x))
               (SetProtoIndices (IntArray_FromNumpy (indices_as_numpy x)) s)).
  assert (Hv1 : is_visible s1 = true) by exact Hv.
  split; [reflexivity|]. split; [reflexivity|].
  destruct (Nat.eq_dec (leading_dim (as_numpy y)) (leading_dim (indices_as_numpy x)))
    as [Heq|Hne].
  - rewrite (visualize_again_same_count (Some y) None None s1 Hv1 Hy eq_refl eq_refl
               (eq_sym Heq)).
    split; [reflexivity|]. split; [reflexivity|].
    split; [intros _; reflexivity|intros Hne; contradiction].
  - rewrite (visualize_arrays_ok (Some y) None None None s1 Hv1 Hy eq_refl eq_refl).
    assert (Hc : implied_count (Some y) None None
                 <> _count (write_arrays (Some y) None None s1)) by exact Hne.
    rewrite (bind_ok _ _ _ _ _ (visualize_status_default _ _ Hc Hnz)).
    split; [reflexivity|]. split; [reflexivity|].
    split; [intros Heq; contradiction|intros _; reflexivity].
Qed.

End Sequences.

(** X13 on the group: [[0, 1, 0, 1]] then three translations. *)
Lemma visualize_selection_then_translations_witness :
  is_visible Demo.group = true
  /\ protoIndices (_instancer_manager
       (snd (visualize None None None (Some (IndexList [0; 1; 0; 1]%Z)) Demo.group)))
     = Some [0; 1; 0; 1]%Z
  /\ protoIndices (_instancer_manager
       (snd (visualize (Demo.array [3; 3] [1; 2; 3; 4; 5; 6; 7; 8; 9]%Z) None None None
               (snd (visualize None None None (Some (IndexList [0; 1; 0; 1]%Z)) Demo.group)))))
     = Some [0; 0; 0]%Z.
Proof.
  split; [reflexivity|]. split; [reflexivity|].
  apply (proj2 (proj2 (proj2 (proj2 (proj2 (visualize_selection_then_translations
           (IndexList [0; 1; 0; 1]%Z)
           (NdArray (mk_ndarray [3; 3] [1; 2; 3; 4; 5; 6; 7; 8; 9]%Z)) Demo.group
           eq_refl eq_refl eq_refl (fun H : 3 = 0 => O_S 2 (eq_sym H)))))))).
  discriminate.
Defined.
